(** * investor_intel_bot: a shallow embedding of the research pipeline

    The development follows [investor_intel_bot.py]: JSON payloads as the
    Python objects [response.json()] yields, Python exceptions as an error
    result, the three external collaborators ([requests], the Azure OpenAI
    client, [matplotlib.pyplot]) as oracles over an abstract world, and the
    functions [query_openalex], [analyze_research_data], [format_insights],
    [generate_investment_insights], [create_visualization_charts] and
    [ResearchBot.run] in the order of the source. *)

From Stdlib Require Import List String Ascii ZArith Bool Arith Lia.
From Stdlib Require Import Sorted Permutation DecimalString.
Import ListNotations.
Open Scope string_scope.

(** ** Python values *)

(** What [json.loads] builds.  JSON numbers are kept to the integers: the
    fields the program reads ([count], [cited_by_count], [publication_year])
    are integers, and floating point is out of the embedding.  A [dict] is an
    association list in insertion order; [assoc] reads the first binding. *)
#[local] Set Warnings "-register-all".
Inductive json : Type :=
| JNull
| JBool (b : bool)
| JInt (z : Z)
| JStr (s : string)
| JArr (items : list json)
| JObj (fields : list (string * json)).

(** The exception classes the program can meet.  [Exception] is the base
    class the source raises itself; the others are raised by the interpreter
    ([AttributeError], [TypeError], [ValueError]), by a collaborator, or by
    pydantic when a value does not fit the declared type of a [State] field
    ([ValidationError]). *)
Inductive exn : Type :=
| Exception (msg : string)
| AttributeError (msg : string)
| TypeError (msg : string)
| ValueError (msg : string)
| KeyError (msg : string)
| RequestException (msg : string)
| JSONDecodeError (msg : string)
| OpenAIError (msg : string)
| BackendError (msg : string)
| ValidationError (msg : string).

(** [str(e)] *)
Definition str_exn (e : exn) : string :=
  match e with
  | Exception m | AttributeError m | TypeError m | ValueError m | KeyError m
  | RequestException m | JSONDecodeError m | OpenAIError m
  | BackendError m | ValidationError m => m
  end.

Inductive pyres (A : Type) : Type :=
| Ok (a : A)
| Err (e : exn).
Arguments Ok {A} a.
Arguments Err {A} e.

Definition rbind {A B} (m : pyres A) (k : A -> pyres B) : pyres B :=
  match m with
  | Ok a => k a
  | Err e => Err e
  end.

Declare Scope pyres_scope.
Delimit Scope pyres_scope with pyres.
Notation "x <- m ;; k" := (rbind m (fun x => k))
  (at level 61, m at next level, right associativity) : pyres_scope.
Open Scope pyres_scope.

Fixpoint mapM {A B} (f : A -> pyres B) (l : list A) : pyres (list B) :=
  match l with
  | [] => Ok []
  | x :: l' => y <- f x ;; ys <- mapM f l' ;; Ok (y :: ys)
  end.

(** [type(v).__name__] *)
Definition type_name (v : json) : string :=
  match v with
  | JNull => "NoneType"
  | JBool _ => "bool"
  | JInt _ => "int"
  | JStr _ => "str"
  | JArr _ => "list"
  | JObj _ => "dict"
  end.

(** [bool(v)] *)
Definition py_truthy (v : json) : bool :=
  match v with
  | JNull => false
  | JBool b => b
  | JInt z => negb (z =? 0)%Z
  | JStr s => negb (s =? EmptyString)%string
  | JArr l => match l with [] => false | _ => true end
  | JObj l => match l with [] => false | _ => true end
  end.

Fixpoint assoc (k : string) (l : list (string * json)) : option json :=
  match l with
  | [] => None
  | (k', v) :: l' => if (k' =? k)%string then Some v else assoc k l'
  end.

(** [d.get(k, default)]: only a [dict] has the method. *)
Definition dict_get (d : json) (k : string) (default : json) : pyres json :=
  match d with
  | JObj kvs => Ok (match assoc k kvs with Some v => v | None => default end)
  | _ => Err (AttributeError
                ("'" ++ type_name d ++ "' object has no attribute 'get'"))
  end.

(** [d[k]] for a string key *)
Definition py_index (d : json) (k : string) : pyres json :=
  match d with
  | JObj kvs => match assoc k kvs with
                | Some v => Ok v
                | None => Err (KeyError ("'" ++ k ++ "'"))
                end
  | JStr _ => Err (TypeError "string indices must be integers")
  | JArr _ => Err (TypeError "list indices must be integers or slices, not str")
  | _ => Err (TypeError ("'" ++ type_name d ++ "' object is not subscriptable"))
  end.

Definition chars (s : string) : list json :=
  map (fun c => JStr (String c EmptyString)) (list_ascii_of_string s).

(** [for x in v]: a list yields its items, a [dict] its keys, a [str] its
    characters; nothing else is iterable. *)
Definition py_iter (v : json) : pyres (list json) :=
  match v with
  | JArr l => Ok l
  | JObj kvs => Ok (map (fun kv => JStr (fst kv)) kvs)
  | JStr s => Ok (chars s)
  | _ => Err (TypeError ("'" ++ type_name v ++ "' object is not iterable"))
  end.

(** [v[:n]]: a list and a [str] can be sliced; a [dict] rejects the slice as
    a key (a [TypeError], a [KeyError] from Python 3.12 on), the rest is not
    subscriptable. *)
Definition py_slice_to (n : nat) (v : json) : pyres json :=
  match v with
  | JArr l => Ok (JArr (firstn n l))
  | JStr s => Ok (JStr (substring 0 n s))
  | JObj _ => Err (TypeError "unhashable type: 'slice'")
  | _ => Err (TypeError ("'" ++ type_name v ++ "' object is not subscriptable"))
  end.

(** ** Hashable values and [collections.Counter] *)

(** The values that can be a key of a [dict] or a [Counter]. *)
Inductive pykey : Type :=
| KNone
| KBool (b : bool)
| KInt (z : Z)
| KStr (s : string).

Definition to_key (v : json) : pyres pykey :=
  match v with
  | JNull => Ok KNone
  | JBool b => Ok (KBool b)
  | JInt z => Ok (KInt z)
  | JStr s => Ok (KStr s)
  | _ => Err (TypeError ("unhashable type: '" ++ type_name v ++ "'"))
  end.

Definition of_key (k : pykey) : json :=
  match k with
  | KNone => JNull
  | KBool b => JBool b
  | KInt z => JInt z
  | KStr s => JStr s
  end.

(** Python's [==] makes [True] equal to [1] and [False] to [0]: a [bool] is
    an [int].  [key_norm] is the representative, [key_eqb] the [==] on keys. *)
Definition key_norm (k : pykey) : pykey :=
  match k with
  | KBool b => KInt (Z.b2z b)
  | _ => k
  end.

Definition key_eqb (a b : pykey) : bool :=
  match key_norm a, key_norm b with
  | KNone, KNone => true
  | KInt x, KInt y => (x =? y)%Z
  | KStr x, KStr y => (x =? y)%string
  | _, _ => false
  end.

(** A [Counter] keeps its keys in the order of their first insertion and,
    on a later equal key, the object inserted first. *)
Definition counter := list (pykey * nat).

Fixpoint counter_incr (k : pykey) (c : counter) : counter :=
  match c with
  | [] => [(k, 1)]
  | (k', n) :: c' =>
      if key_eqb k' k then (k', S n) :: c' else (k', n) :: counter_incr k c'
  end.

(** [Counter(xs)] *)
Definition Counter (xs : list pykey) : counter :=
  fold_left (fun c k => counter_incr k c) xs [].

(** [sorted(items, key=itemgetter(1), reverse=True)]: a stable sort, so
    items of equal count keep the order they had. *)
Fixpoint insert_desc (x : pykey * nat) (l : counter) : counter :=
  match l with
  | [] => [x]
  | y :: l' => if (snd x <? snd y)%nat then y :: insert_desc x l' else x :: l
  end.

Definition sort_desc (l : counter) : counter := fold_right insert_desc [] l.

(** [c.most_common(n)], which the library documents as
    [sorted(c.items(), key=itemgetter(1), reverse=True)[:n]]. *)
Definition most_common (n : nat) (c : counter) : counter :=
  firstn n (sort_desc c).

(** [type(k).__name__] *)
Definition key_type_name (k : pykey) : string :=
  match k with
  | KNone => "NoneType"
  | KBool _ => "bool"
  | KInt _ => "int"
  | KStr _ => "str"
  end.

(** [a < b] on keys: defined between numbers and between strings. *)
Definition key_lt (a b : pykey) : pyres bool :=
  match key_norm a, key_norm b with
  | KInt x, KInt y => Ok (x <? y)%Z
  | KStr x, KStr y => Ok (x <? y)%string
  | _, _ => Err (TypeError ("'<' not supported between instances of '"
                              ++ key_type_name a ++ "' and '"
                              ++ key_type_name b ++ "'"))
  end.

(** [a < b] on the [(key, count)] tuples of [Counter.items()]: the first
    position where the tuples differ decides. *)
Definition item_lt (a b : pykey * nat) : pyres bool :=
  if key_eqb (fst a) (fst b) then Ok (snd a <? snd b)%nat else key_lt (fst a) (fst b).

(** [sorted(items)]: stable, ascending, and it raises at the first
    comparison Python does not support.  The comparisons are made here in
    the order of an insertion sort; the interpreter's sort may meet another
    unsupported pair first, so that the two type names of the message may
    come in the other order.  Whether it raises does not depend on that
    order: it raises exactly when two of the keys cannot be compared. *)
Fixpoint insert_asc (x : pykey * nat) (l : counter) : pyres counter :=
  match l with
  | [] => Ok [x]
  | y :: l' =>
      lt <- item_lt y x ;;
      if lt then (r <- insert_asc x l' ;; Ok (y :: r)) else Ok (x :: l)
  end.

Fixpoint py_sorted (l : counter) : pyres counter :=
  match l with
  | [] => Ok []
  | x :: l' => s <- py_sorted l' ;; insert_asc x s
  end.

(** ** The statistics record *)

(** One entry of [top_papers]: the [dict] with keys [title], [citations],
    [year], [doi]. *)
Record paper_summary : Type := {
  title : json;
  citations : json;
  year : json;
  doi : json
}.

Definition chart_map := list (string * string).

Module ResearchStats.
Record t : Type := mk {
  total_papers : json;
  top_papers : list paper_summary;
  yearly_trends : counter;
  top_institutions : counter;
  top_authors : counter;
  charts : option chart_map
}.
Definition set_charts (s : t) (c : chart_map) : t :=
  mk (total_papers s) (top_papers s) (yearly_trends s) (top_institutions s)
     (top_authors s) (Some c).
End ResearchStats.

(** ** Aggregation: the pure part of [analyze_research_data] *)

(** The body of the [top_papers] comprehension. *)
Definition paper_summary_of (paper : json) : pyres paper_summary :=
  t <- dict_get paper "title" (JStr EmptyString) ;;
  c <- dict_get paper "cited_by_count" (JInt 0) ;;
  y <- dict_get paper "publication_year" (JStr EmptyString) ;;
  d <- dict_get paper "doi" (JStr EmptyString) ;;
  Ok {| title := t; citations := c; year := y; doi := d |}.

(** One step of the [years] comprehension: the [if] first, then the element. *)
Definition paper_year (paper : json) : pyres (list json) :=
  c <- dict_get paper "publication_year" JNull ;;
  if py_truthy c
  then y <- dict_get paper "publication_year" JNull ;; Ok [y]
  else Ok [].

(** The body of [for inst in paper.get("authorships", [])]: what the
    authorship adds to [institutions]. *)
Definition authorship_institutions (inst : json) : pyres (list json) :=
  c <- dict_get inst "institutions" JNull ;;
  if py_truthy c
  then l <- dict_get inst "institutions" (JArr []) ;;
       items <- py_iter l ;;
       mapM (fun i => dict_get i "display_name" JNull) items
  else Ok [].

(** The body of [for author in paper.get("authorships", [])]: what the
    authorship adds to [authors]. *)
Definition authorship_author (author : json) : pyres (list json) :=
  c <- dict_get author "author" JNull ;;
  if py_truthy c
  then a <- py_index author "author" ;;
       n <- dict_get a "display_name" JNull ;;
       Ok [n]
  else Ok [].

(** The body of [for paper in results]: first the institutions loop, then
    the authors loop.  An exception discards both accumulators, so the two
    lists a paper adds are returned and concatenated by the caller. *)
Definition paper_entries (paper : json) : pyres (list json * list json) :=
  a1 <- dict_get paper "authorships" (JArr []) ;;
  l1 <- py_iter a1 ;;
  insts <- mapM authorship_institutions l1 ;;
  a2 <- dict_get paper "authorships" (JArr []) ;;
  l2 <- py_iter a2 ;;
  auths <- mapM authorship_author l2 ;;
  Ok (List.concat insts, List.concat auths).

(** Lines 68 to 106: everything before the charts are drawn. *)
Definition build_stats (api_response : json) : pyres ResearchStats.t :=
  results <- dict_get api_response "results" (JArr []) ;;
  meta <- dict_get api_response "meta" (JObj []) ;;
  total <- dict_get meta "count" (JInt 0) ;;
  head5 <- py_slice_to 5 results ;;
  head5_items <- py_iter head5 ;;
  tops <- mapM paper_summary_of head5_items ;;
  papers <- py_iter results ;;
  years <- mapM paper_year papers ;;
  year_keys <- mapM to_key (List.concat years) ;;
  papers' <- py_iter results ;;
  entries <- mapM paper_entries papers' ;;
  inst_keys <- mapM to_key (List.concat (map fst entries)) ;;
  author_keys <- mapM to_key (List.concat (map snd entries)) ;;
  trends <- py_sorted (Counter year_keys) ;;
  Ok (ResearchStats.mk total tops trends
        (most_common 5 (Counter inst_keys))
        (most_common 5 (Counter author_keys))
        None).

(** ** Text formatting *)

Definition nl : string := String (ascii_of_nat 10) EmptyString.

Definition str_Z (z : Z) : string := NilZero.string_of_int (Z.to_int z).
Definition str_nat (n : nat) : string := str_Z (Z.of_nat n).

(** The digits of a number, least significant first, with a comma after
    every third digit that has a digit after it. *)
Fixpoint group_rev (ds : list ascii) : list ascii :=
  match ds with
  | a :: ((b :: ((c :: ((_ :: _) as more)) as t2)) as t1) =>
      a :: b :: c :: ","%char :: group_rev more
  | _ => ds
  end.

(** [format(z, ",")] *)
Definition comma_Z (z : Z) : string :=
  let digits := list_ascii_of_string (str_Z (Z.abs z)) in
  let grouped := string_of_list_ascii (rev (group_rev (rev digits))) in
  if (z <? 0)%Z then "-" ++ grouped else grouped.

(** [str(k)] of a key *)
Definition str_key (k : pykey) : string :=
  match k with
  | KNone => "None"
  | KBool true => "True"
  | KBool false => "False"
  | KInt z => str_Z z
  | KStr s => s
  end.

Section Formatting.

(** [repr] of a [list] or a [dict]: the interpreter's, not the program's. *)
Variable py_repr : json -> string.

(** [format(v, "")], which is [str(v)] *)
Definition py_str (v : json) : string :=
  match v with
  | JNull => "None"
  | JBool true => "True"
  | JBool false => "False"
  | JInt z => str_Z z
  | JStr s => s
  | _ => py_repr v
  end.

(** [format(v, ",")]: numbers only. *)
Definition format_comma (v : json) : pyres string :=
  match v with
  | JInt z => Ok (comma_Z z)
  | JBool b => Ok (comma_Z (Z.b2z b))
  | JStr _ => Err (ValueError "Cannot specify ',' with 's'.")
  | _ => Err (TypeError ("unsupported format string passed to "
                           ++ type_name v ++ ".__format__"))
  end.

Definition format_paper (paper : paper_summary) : pyres string :=
  c <- format_comma (citations paper) ;;
  Ok ("â€¢ " ++ py_str (title paper) ++ nl
        ++ "  Citations: " ++ c ++ " | Year: " ++ py_str (year paper) ++ nl
        ++ "  DOI: " ++ py_str (doi paper)).

Definition format_count (what : pykey * nat) : string :=
  "â€¢ " ++ str_key (fst what) ++ " (" ++ str_nat (snd what) ++ " papers)".

Definition format_trend (what : pykey * nat) : string :=
  str_key (fst what) ++ " | " ++ str_nat (snd what).

(** ["\n".join(message)] *)
Fixpoint join_lines (l : list string) : string :=
  match l with
  | [] => EmptyString
  | [x] => x
  | x :: l' => x ++ nl ++ join_lines l'
  end.

Definition format_insights (stats : ResearchStats.t) : pyres string :=
  total <- format_comma (ResearchStats.total_papers stats) ;;
  let message :=
    [ "ðŸ“Š Market Research Insights";
      nl ++ "ðŸ” Found " ++ total ++ " academic papers on this topic";
      nl ++ "ðŸ“ˆ Research Interest:";
      "Year | Number of Papers";
      "-----|----------------" ] in
  let message := app message (map format_trend (ResearchStats.yearly_trends stats)) in
  let message := app message ([ nl ++ "ðŸ† Top Cited Papers:"; "-------------------" ]) in
  papers <- mapM format_paper (ResearchStats.top_papers stats) ;;
  let message := app message (papers) in
  let message := app message ([ nl ++ "ðŸ›ï¸ Leading Institutions:"; "--------------------" ]) in
  let message := app message (map format_count (ResearchStats.top_institutions stats)) in
  let message := app message ([ nl ++ "ðŸ‘¨â€ðŸ”¬ Top Researchers:"; "----------------" ]) in
  let message := app message (map format_count (ResearchStats.top_authors stats)) in
  Ok (join_lines message).

End Formatting.

(** ** The collaborators *)

(** What a collaborator answers: a value, or the message of the exception
    of its own class that it raises. *)
Definition answer (A : Type) : Type := (string + A)%type.

Definition raised_as {A} (cls : string -> exn) (a : answer A) : pyres A :=
  match a with
  | inr v => Ok v
  | inl msg => Err (cls msg)
  end.

(** What [requests.get] returns: the status code, and the body, which
    [response.json()] parses or rejects with a [JSONDecodeError]. *)
Record http_response : Type := {
  status_code : Z;
  body : answer json
}.

(** [response.json()] *)
Definition response_json (response : http_response) : pyres json :=
  raised_as JSONDecodeError (body response).

(** The arguments of [client.chat.completions.create]; the temperature 0.7
    is kept in tenths. *)
Record chat_request : Type := {
  model : string;
  system_content : string;
  user_content : string;
  temperature_tenths : Z;
  max_tokens : Z
}.

(** The [matplotlib.pyplot] calls of the program, with the data they are
    given (font sizes, markers and line styles are constants of the calls). *)
Inductive plt_call : Type :=
| StyleUse (name : string)
| Figure (width height : Z)
| Plot (xs : list pykey) (ys : list nat)
| Title (text : string)
| Xlabel (text : string)
| Ylabel (text : string)
| Grid
| XticksRotation (degrees : Z)
| Barh (ys widths : list nat)
| Yticks (ticks : list nat) (labels : list pykey)
| Close.

(** What the program does to the outside, in order; a call of a
    collaborator is recorded with the message of the exception it raised,
    if it raised one. *)
Inductive event : Type :=
| EvGet (url : string) (params : list (string * json)) (raised : option string)
| EvPlt (call : plt_call) (raised : option string)
| EvSavefig (raised : option string)
| EvChat (request : chat_request) (raised : option string)
| EvPrint (line : string).

Definition raised_of (ev : event) : option string :=
  match ev with
  | EvGet _ _ r | EvPlt _ r | EvSavefig r | EvChat _ r => r
  | EvPrint _ => None
  end.

Definition failure {A} (a : answer A) : option string :=
  match a with
  | inr _ => None
  | inl msg => Some msg
  end.

Record world (W : Type) : Type := mkWorld {
  ext : W;
  trace : list event
}.
Arguments mkWorld {W} ext trace.
Arguments ext {W} w.
Arguments trace {W} w.

Module State.
Record t : Type := mk {
  concept : string;
  api_response : option json;
  stats : option ResearchStats.t;
  result : option string;
  investment_insights : option string;
  charts : option chart_map
}.
End State.

(** [ResearchBot]: [tools] and [workflow] are fixed by [__init__]; only
    [current_state] changes. *)
Record ResearchBot : Type := {
  current_state : option State.t
}.

Definition unpack_error : exn :=
  ValueError "not enough values to unpack (expected 2, got 0)".

(** [zip] over the unpacked pairs, assigned to two names: [zip()] of no
    argument yields nothing, so the unpacking of an empty list raises. *)
Definition unzip_pairs (pairs : counter) : pyres (list pykey * list nat) :=
  match pairs with
  | [] => Err unpack_error
  | _ => Ok (map fst pairs, map snd pairs)
  end.

(** [range(len(l))] *)
Definition range_len {A} (l : list A) : list nat := seq 0 (List.length l).

Section Pipeline.

Variable W : Type.

(** [requests.get(url, params=...)] *)
Variable requests_get :
  string -> list (string * json) -> W -> answer http_response * W.

(** [client.chat.completions.create(...)] followed by
    [.choices[0].message.content] *)
Variable chat_create : chat_request -> W -> answer string * W.

(** A [matplotlib.pyplot] call *)
Variable plt : plt_call -> W -> answer unit * W.

(** [plt.savefig] into a fresh buffer, read back and base64-encoded *)
Variable savefig_b64 : W -> answer string * W.

Variable py_repr : json -> string.

(** The text of pydantic's [ValidationError] for a value that is given for
    [api_response] and is no dictionary *)
Variable validation_error : json -> string.

(** Computations that read and change the world and may raise. *)
Definition M (A : Type) : Type := world W -> pyres A * world W.

Definition ret {A} (a : A) : M A := fun w => (Ok a, w).

Definition raise {A} (e : exn) : M A := fun w => (Err e, w).

Definition bind {A B} (m : M A) (k : A -> M B) : M B :=
  fun w => match m w with
           | (Ok a, w') => k a w'
           | (Err e, w') => (Err e, w')
           end.

Definition lift {A} (r : pyres A) : M A := fun w => (r, w).

Notation "x <-- m ;; k" := (bind m (fun x => k))
  (at level 61, m at next level, right associativity).

Definition emit (ev : event) (w : world W) : world W :=
  mkWorld (ext w) (trace w ++ [ev])%list.

Definition call_get (url : string) (params : list (string * json))
  : M http_response :=
  fun w => let (r, x) := requests_get url params (ext w) in
           (raised_as RequestException r,
            mkWorld x (trace w ++ [EvGet url params (failure r)])%list).

Definition call_plt (c : plt_call) : M unit :=
  fun w => let (r, x) := plt c (ext w) in
           (raised_as BackendError r,
            mkWorld x (trace w ++ [EvPlt c (failure r)])%list).

Definition call_savefig : M string :=
  fun w => let (r, x) := savefig_b64 (ext w) in
           (raised_as BackendError r,
            mkWorld x (trace w ++ [EvSavefig (failure r)])%list).

Definition call_chat (req : chat_request) : M string :=
  fun w => let (r, x) := chat_create req (ext w) in
           (raised_as OpenAIError r,
            mkWorld x (trace w ++ [EvChat req (failure r)])%list).

(** ** [query_openalex] *)

Definition base_url : string := "https://api.openalex.org/works".

Definition query_params (concept : string) : list (string * json) :=
  [ ("search", JStr concept);
    ("per_page", JInt 50);
    ("sort", JStr "cited_by_count:desc") ].

Definition status_error (code : Z) : exn :=
  Exception ("OpenAlex API request failed with status " ++ str_Z code).

Definition query_openalex (concept : string) : M json :=
  response <-- call_get base_url (query_params concept) ;;
  if negb (status_code response =? 200)%Z
  then raise (status_error (status_code response))
  else lift (response_json response).

(** ** [create_visualization_charts] *)

Definition create_visualization_charts (stats : ResearchStats.t) : M chart_map :=
  _ <-- call_plt (StyleUse "default") ;;
  (* 1. research trend over time *)
  _ <-- call_plt (Figure 12 6) ;;
  let years := map fst (ResearchStats.yearly_trends stats) in
  let papers := map snd (ResearchStats.yearly_trends stats) in
  _ <-- call_plt (Plot years papers) ;;
  _ <-- call_plt (Title "Research Trend Over Time") ;;
  _ <-- call_plt (Xlabel "Year") ;;
  _ <-- call_plt (Ylabel "Number of Papers") ;;
  _ <-- call_plt Grid ;;
  _ <-- call_plt (XticksRotation 45) ;;
  trend <-- call_savefig ;;
  _ <-- call_plt Close ;;
  (* 2. top institutions *)
  _ <-- call_plt (Figure 12 6) ;;
  ic <-- lift (unzip_pairs (ResearchStats.top_institutions stats)) ;;
  let institutions := fst ic in
  let counts := snd ic in
  _ <-- call_plt (Barh (range_len institutions) counts) ;;
  _ <-- call_plt (Yticks (range_len institutions) institutions) ;;
  _ <-- call_plt (Title "Top Research Institutions") ;;
  _ <-- call_plt (Xlabel "Number of Papers") ;;
  _ <-- call_plt (Ylabel "Institution") ;;
  insts <-- call_savefig ;;
  _ <-- call_plt Close ;;
  (* 3. top authors *)
  _ <-- call_plt (Figure 12 6) ;;
  ac <-- lift (unzip_pairs (ResearchStats.top_authors stats)) ;;
  let authors := fst ac in
  let author_counts := snd ac in
  _ <-- call_plt (Barh (range_len authors) author_counts) ;;
  _ <-- call_plt (Yticks (range_len authors) authors) ;;
  _ <-- call_plt (Title "Top Authors in the Field") ;;
  _ <-- call_plt (Xlabel "Number of Papers") ;;
  _ <-- call_plt (Ylabel "Author") ;;
  auths <-- call_savefig ;;
  _ <-- call_plt Close ;;
  ret [ ("trend", trend); ("institutions", insts); ("authors", auths) ].

(** ** [analyze_research_data] *)

Definition analyze_research_data (api_response : json) : M ResearchStats.t :=
  stats <-- lift (build_stats api_response) ;;
  charts <-- create_visualization_charts stats ;;
  ret (ResearchStats.set_charts stats charts).

(** ** [generate_investment_insights] *)

Definition prompt_of (research_data concept : string) : string :=
  "As an investment analyst, analyze the following research landscape data for "
    ++ concept ++ " and provide strategic investment insights. " ++ nl
    ++ "    Focus on:" ++ nl
    ++ "    1. Market maturity and growth potential" ++ nl
    ++ "    2. Key players and institutional involvement" ++ nl
    ++ "    3. Research momentum and emerging trends" ++ nl
    ++ "    4. Potential investment opportunities and risks" ++ nl
    ++ "    5. Recommendations for investors" ++ nl
    ++ nl
    ++ "    Research Data:" ++ nl
    ++ "    " ++ research_data ++ nl
    ++ nl
    ++ "    Provide a concise, actionable analysis for investors considering this space." ++ nl
    ++ "    ".

Definition chat_request_of (prompt : string) : chat_request :=
  {| model := "gpt-4o";
     system_content :=
       "You are an expert investment analyst specializing in emerging technology markets.";
     user_content := prompt;
     temperature_tenths := 7;
     max_tokens := 1000 |}.

(** The [try] block: any exception of the call is logged and raised again
    as an [Exception] with the original message inside. *)
Definition generate_investment_insights (research_data concept : string)
  : M string :=
  let prompt := prompt_of research_data concept in
  fun w => match call_chat (chat_request_of prompt) w with
           | (Ok content, w') => (Ok content, w')
           | (Err e, w') =>
               (Err (Exception ("Azure OpenAI API call failed: " ++ str_exn e)),
                emit (EvPrint ("Detailed error: " ++ str_exn e)) w')
           end.

(** ** The graph and [ResearchBot.run] *)

(** A node reads the fields of the state, an unset [Optional] field being
    [None], and returns the fields it sets; the graph merges them into the
    state.  An exception of a node leaves [invoke]. *)

(** [State] as the input of a node: the graph builds the pydantic model
    from the values it holds, and pydantic checks them against the declared
    types.  [api_response] is declared [Optional[Dict[str, Any]]]: an
    object and [None] pass, any other value is rejected.  The other fields
    hold what the nodes made, which is of the declared type. *)
Definition state_input (state : State.t) : pyres State.t :=
  match State.api_response state with
  | None | Some JNull | Some (JObj _) => Ok state
  | Some v => Err (ValidationError (validation_error v))
  end.

(** A node run by the graph: its input is validated, then it is called. *)
Definition enter (node : State.t -> M State.t) (state : State.t) : M State.t :=
  s <-- lift (state_input state) ;; node s.

Definition query_node (state : State.t) : M State.t :=
  api_response <-- query_openalex (State.concept state) ;;
  ret (State.mk (State.concept state) (Some api_response) (State.stats state)
         (State.result state) (State.investment_insights state)
         (State.charts state)).

Definition analyze_node (state : State.t) : M State.t :=
  stats <-- analyze_research_data
              (match State.api_response state with
               | Some r => r
               | None => JNull
               end) ;;
  ret (State.mk (State.concept state) (State.api_response state) (Some stats)
         (State.result state) (State.investment_insights state)
         (ResearchStats.charts stats)).

Definition format_node (state : State.t) : M State.t :=
  result <-- match State.stats state with
             | Some stats => lift (format_insights py_repr stats)
             | None => raise (AttributeError
                         "'NoneType' object has no attribute 'total_papers'")
             end ;;
  ret (State.mk (State.concept state) (State.api_response state)
         (State.stats state) (Some result) (State.investment_insights state)
         (State.charts state)).

Definition insights_node (state : State.t) : M State.t :=
  insights <-- generate_investment_insights
                 (match State.result state with
                  | Some r => r
                  | None => "None"
                  end)
                 (State.concept state) ;;
  ret (State.mk (State.concept state) (State.api_response state)
         (State.stats state) (State.result state) (Some insights)
         (State.charts state)).

(** [workflow.invoke({"concept": concept})]: entry point [query], edges
    [query -> analyze -> format -> insights], finish point [insights]. *)
Definition workflow_invoke (concept : string) : M State.t :=
  s1 <-- enter query_node (State.mk concept None None None None None) ;;
  s2 <-- enter analyze_node s1 ;;
  s3 <-- enter format_node s2 ;;
  enter insights_node s3.

(** The first exception of a run: a stage (the validation of its input,
    then the node) raises [e], leaving the world [w'], after the stages
    before it have returned. *)
Definition stage_raises (concept : string) (w : world W) (e : exn)
  (w' : world W) : Prop :=
  let s0 := State.mk concept None None None None None in
  enter query_node s0 w = (Err e, w') \/
  exists s1 w1, enter query_node s0 w = (Ok s1, w1) /\
    (enter analyze_node s1 w1 = (Err e, w') \/
     exists s2 w2, enter analyze_node s1 w1 = (Ok s2, w2) /\
       (enter format_node s2 w2 = (Err e, w') \/
        exists s3 w3, enter format_node s2 w2 = (Ok s3, w3) /\
          enter insights_node s3 w3 = (Err e, w'))).

Definition run_output : Type := string * string * option chart_map.

(** [run]: [current_state] is assigned before the tuple is built, and the
    [except] clause also catches the [KeyError] of a missing key. *)

Definition run (self : ResearchBot) (concept : string) (w : world W)
  : run_output * ResearchBot * world W :=
  match workflow_invoke concept w with
  | (Ok st, w') =>
      let self' := {| current_state := Some st |} in
      match State.result st, State.investment_insights st with
      | Some r, Some i => ((r, i, State.charts st), self', w')
      | None, _ => (("Error: 'result'", EmptyString, None), self', w')
      | _, None =>
          (("Error: 'investment_insights'", EmptyString, None), self', w')
      end
  | (Err e, w') => (("Error: " ++ str_exn e, EmptyString, None), self, w')
  end.

End Pipeline.

(** ** [main] *)

(** How [main] ends: it read [quit], [input] met the end of the input (the
    [EOFError] leaves [main]), or a chart file could not be written (the
    exception of [open] or [write] leaves [main]). *)
Inductive main_exit : Type :=
| ExitQuit
| ExitEOF
| ExitWriteError (msg : string).

(** [s.lower()] and [s.replace(' ', '_')] on byte strings: the letters A to
    Z are lowered, a space becomes an underscore, every other byte stays. *)
Definition lower_ascii (c : ascii) : ascii :=
  let n := nat_of_ascii c in
  if ((65 <=? n) && (n <=? 90))%nat then ascii_of_nat (n + 32) else c.

Fixpoint lower (s : string) : string :=
  match s with
  | EmptyString => EmptyString
  | String c s' => String (lower_ascii c) (lower s')
  end.

Fixpoint replace_spaces (s : string) : string :=
  match s with
  | EmptyString => EmptyString
  | String c s' =>
      String (if Ascii.eqb c " "%char then "_"%char else c) (replace_spaces s')
  end.

(** A call that writes a file. *)
Record file_write : Type := {
  fw_name : string;
  fw_data : string;
  fw_raised : option string
}.

(** [f"{concept.replace(' ', '_')}_{chart_name}_chart.png"] *)
Definition chart_filename (concept chart_name : string) : string :=
  replace_spaces concept ++ "_" ++ chart_name ++ "_chart.png".

Section Console.

Variable W : Type.
Variable requests_get :
  string -> list (string * json) -> W -> answer http_response * W.
Variable chat_create : chat_request -> W -> answer string * W.
Variable plt : plt_call -> W -> answer unit * W.
Variable savefig_b64 : W -> answer string * W.
Variable py_repr : json -> string.
Variable validation_error : json -> string.

(** [open(filename, "wb")], [f.write(data)] and the closing of the file: the
    file system belongs to the world, which replaces a file of the same
    name or raises. *)
Variable write_file : string -> string -> W -> answer unit * W.

(** [base64.b64decode], on the text [b64encode] made *)
Variable b64decode : string -> string.

(** The calls [main] makes to write a file, in order: the name, the bytes,
    and the exception the call raised, if it raised one.  This is a log of
    calls, not the content of the file system. *)
Definition write_log := list file_write.

(** [for chart_name, chart_data in charts.items()]: one call per chart; a
    failing call ends the loop and [main]. *)
Fixpoint save_charts (concept : string) (charts : chart_map) (log : write_log)
  (w : world W) : option string * write_log * world W :=
  match charts with
  | [] => (None, log, w)
  | (chart_name, chart_data) :: rest =>
      let filename := chart_filename concept chart_name in
      let (r, x) := write_file filename (b64decode chart_data) (ext w) in
      let log' :=
        (log ++ [{| fw_name := filename; fw_data := b64decode chart_data;
                    fw_raised := failure r |}])%list in
      match r with
      | inl msg => (Some msg, log', mkWorld x (trace w))
      | inr _ =>
          save_charts concept rest log'
            (emit W (EvPrint ("- " ++ filename)) (mkWorld x (trace w)))
      end
  end.

(** The [while True] loop of [main] over the lines of the standard input:
    [input] returns the next line, and raises when there is none. *)
Fixpoint main_loop (stdin : list string) (bot : ResearchBot) (log : write_log)
  (w : world W) : main_exit * write_log * ResearchBot * world W :=
  match stdin with
  | [] => (ExitEOF, log, bot, w)
  | concept :: rest =>
      if (lower concept =? "quit")%string then (ExitQuit, log, bot, w)
      else
        let '(research_data, investment_insights, charts, bot1, w1) :=
          run W requests_get chat_create plt savefig_b64 py_repr
            validation_error bot concept w in
        let w2 := emit W (EvPrint (nl ++ "=== RESEARCH DATA ===")) w1 in
        let w3 := emit W (EvPrint research_data) w2 in
        let w4 := emit W (EvPrint (nl ++ "=== INVESTMENT INSIGHTS ===")) w3 in
        let w5 := emit W (EvPrint investment_insights) w4 in
        match charts with
        | Some ((_ :: _) as items) =>
            let w6 := emit W (EvPrint (nl ++ "=== VISUALIZATION CHARTS ===")) w5 in
            let w7 :=
              emit W (EvPrint "Charts have been generated and saved as:") w6 in
            match save_charts concept items log w7 with
            | (Some msg, log', w8) => (ExitWriteError msg, log', bot1, w8)
            | (None, log', w8) =>
                main_loop rest bot1 log'
                  (emit W
                     (EvPrint (nl ++ "You can find the visualization charts in the current directory."))
                     w8)
            end
        | _ => main_loop rest bot1 log w5
        end
  end.

(** [main]: a fresh bot, then the loop. *)
Definition main (stdin : list string) (w : world W)
  : main_exit * write_log * ResearchBot * world W :=
  main_loop stdin {| current_state := None |} [] w.

End Console.

(** * Vocabulary of the statements *)

(** [a] is below [b]: the comparison is supported and true. *)
Definition key_below (a b : pykey) : Prop := key_lt a b = Ok true.

(** How many elements of [xs] are [==] to [k]. *)
Definition count_key (k : pykey) (xs : list pykey) : nat :=
  List.length (filter (key_eqb k) xs).

(** Whether some element of [xs] is [==] to [k]. *)
Definition occurs (k : pykey) (xs : list pykey) : bool :=
  existsb (key_eqb k) xs.

(** The position of the first element of [xs] that is [==] to [k]
    (the length of [xs] when there is none). *)
Fixpoint first_index (k : pykey) (xs : list pykey) : nat :=
  match xs with
  | [] => 0
  | x :: xs' => if key_eqb k x then 0 else S (first_index k xs')
  end.

(** [c[k]]: the count stored for [k], 0 for a missing key. *)
Fixpoint counter_get (k : pykey) (c : counter) : nat :=
  match c with
  | [] => 0
  | (k', n) :: c' => if key_eqb k k' then n else counter_get k c'
  end.

(** The order [most_common] leaves its items in: more occurrences first,
    and among equal counts the key met first in [xs]. *)
Definition ranks_before (xs : list pykey) (a b : pykey * nat) : Prop :=
  snd b < snd a \/
  (snd a = snd b /\ first_index (fst a) xs < first_index (fst b) xs).

(** The record sequence as the specification reads it: a field of an
    object ([None] when absent), the items of a list, the records of a
    payload, and the flattened years, institution names and author entries. *)
Definition field (k : string) (v : json) : json :=
  match v with
  | JObj kvs => match assoc k kvs with Some x => x | None => JNull end
  | _ => JNull
  end.

Definition elems (v : json) : list json :=
  match v with
  | JArr l => l
  | _ => []
  end.

Definition records (payload : json) : list json :=
  elems (field "results" payload).

Definition authorships (record : json) : list json :=
  elems (field "authorships" record).

(** The publication years of the records whose year is truthy. *)
Definition record_years (rs : list json) : list json :=
  filter py_truthy (map (field "publication_year") rs).

(** Every institution name of every authorship of every record. *)
Definition authorship_institution_names (a : json) : list json :=
  map (field "display_name") (elems (field "institutions" a)).

Definition institution_names (rs : list json) : list json :=
  flat_map (fun r => flat_map authorship_institution_names (authorships r)) rs.

(** For every authorship whose author object is truthy, the author's
    display name, [None] when the object has none. *)
Definition authorship_author_entry (a : json) : list json :=
  if py_truthy (field "author" a)
  then [field "display_name" (field "author" a)]
  else [].

Definition author_entries (rs : list json) : list json :=
  flat_map (fun r => flat_map authorship_author_entry (authorships r)) rs.

(** Whether the value [v] is [==] to the key [k]. *)
Definition is_key (k : pykey) (v : json) : bool :=
  match to_key v with
  | Ok k' => key_eqb k k'
  | Err _ => false
  end.

(** How many values of [vs] are [==] to [k]. *)
Definition occurrences (k : pykey) (vs : list json) : nat :=
  List.length (filter (is_key k) vs).

(** The key a value is stored under ([None] stands in for the values that
    are no key at all), and the keys of a list of values. *)
Definition key_of (v : json) : pykey :=
  match to_key v with
  | Ok k => k
  | Err _ => KNone
  end.

Definition keys_of (vs : list json) : list pykey := map key_of vs.

(** A field that is present in an object. *)
Definition present (k : string) (v : json) : option json :=
  match v with
  | JObj kvs => assoc k kvs
  | _ => None
  end.

Definition is_none (v : json) : bool :=
  match v with
  | JNull => true
  | _ => false
  end.

(** The publication years of the records whose year is defined, that is,
    present and not [None]. *)
Definition defined_years (rs : list json) : list json :=
  filter (fun v => negb (is_none v)) (map (field "publication_year") rs).

(** The second claim as the specification words it: the keys of the trend
    are exactly the defined years of the records. *)
Definition trend_keys_are_defined_years (p : json) (st : ResearchStats.t) : Prop :=
  forall y, In y (defined_years (records p)) <->
            exists k n, In (k, n) (ResearchStats.yearly_trends st)
                        /\ is_key k y = true.

(** A publication year that is an integer (a [bool] is one) or a string:
    the years whose order and equality are modelled here as the interpreter
    has them. *)
Definition integer_or_text (v : json) : bool :=
  match v with
  | JInt _ | JBool _ | JStr _ => true
  | _ => false
  end.

(** The seventh claim as the specification words it: on the success status
    the fetch returns a parsed body. *)
Definition returns_parsed_body (response : http_response) (out : pyres json)
  : Prop :=
  status_code response = 200%Z -> exists payload, out = Ok payload.

(** A parsed body that is neither an object nor [None]: a list, a string,
    a number. *)
Definition not_a_mapping (v : json) : bool :=
  match v with
  | JNull | JObj _ => false
  | _ => true
  end.

(** The ninth claim as the specification words it: every top author is a
    display name that some authorship of some record carries. *)
Definition top_authors_are_display_names (p : json) (st : ResearchStats.t) : Prop :=
  forall k n, In (k, n) (ResearchStats.top_authors st) ->
    exists r a name,
      In r (records p) /\ In a (authorships r) /\
      present "display_name" (field "author" a) = Some name /\
      to_key name = Ok k.

(** Whether [needle] occurs in [hay]. *)
Fixpoint contains (needle hay : string) : bool :=
  if String.prefix needle hay then true
  else match hay with
       | EmptyString => false
       | String _ hay' => contains needle hay'
       end.

Definition chart_ids : list string := ["trend"; "institutions"; "authors"].

(** The eighth claim as the specification words it: an exception of the
    chart rendering names a chart identifier. *)
Definition names_a_chart (e : exn) : bool :=
  existsb (fun id => contains id (str_exn e)) chart_ids.

Definition render_error_names_chart (out : pyres chart_map) : Prop :=
  forall e, out = Err e -> names_a_chart e = true.

(** A recorded call that raised nothing. *)
Definition succeeded (ev : event) : Prop := raised_of ev = None.

(** The events [evs] end with a backend call that raised, every call
    before it succeeded, and [e] is that call's exception as it was raised. *)
Definition aborted_by_call (evs : list event) (e : exn) : Prop :=
  exists evs0 ev msg,
    evs = (evs0 ++ [ev])%list /\ Forall succeeded evs0 /\
    raised_of ev = Some msg /\ e = BackendError msg.

(** A computation that swallows no failure of the backend: it returns only
    when every call it made succeeded, and otherwise it stops at the first
    call that raised, with that call's exception, or raises one of its own
    exceptions [P] after calls that all succeeded. *)
Definition propagates {W A} (P : exn -> Prop)
  (m : world W -> pyres A * world W) : Prop :=
  forall w, exists evs,
    trace (snd (m w)) = (trace w ++ evs)%list /\
    match fst (m w) with
    | Ok _ => Forall succeeded evs
    | Err e => aborted_by_call evs e \/ (P e /\ Forall succeeded evs)
    end.

(** [d.get(k, default)] read off an object: the stored value, [default]
    for a missing key. *)
Definition field_or (k : string) (default : json) (v : json) : json :=
  match v with
  | JObj kvs => match assoc k kvs with Some x => x | None => default end
  | _ => default
  end.

(** The entry of [top_papers] a record gives. *)
Definition summary_of (r : json) : paper_summary :=
  {| title := field_or "title" (JStr EmptyString) r;
     citations := field_or "cited_by_count" (JInt 0) r;
     year := field_or "publication_year" (JStr EmptyString) r;
     doi := field_or "doi" (JStr EmptyString) r |}.

(** The sum of the counts of a counter. *)
Definition counter_total (c : counter) : nat := list_sum (map snd c).

(** The values [format(v, ",")] accepts. *)
Definition numeric (v : json) : bool :=
  match v with
  | JInt _ | JBool _ => true
  | _ => false
  end.

(** The values of a payload that [format(v, ",")] rejects: a string,
    [None], a list, a dict. *)
Definition unformattable (v : json) : bool :=
  match v with
  | JNull | JStr _ | JArr _ | JObj _ => true
  | _ => false
  end.

(** The kinds of recorded events. *)
Definition is_get (ev : event) : bool :=
  match ev with
  | EvGet _ _ _ => true
  | _ => false
  end.

Definition is_chat (ev : event) : bool :=
  match ev with
  | EvChat _ _ => true
  | _ => false
  end.

Definition is_backend (ev : event) : bool :=
  match ev with
  | EvPlt _ _ | EvSavefig _ => true
  | _ => false
  end.

(** A computation that adds to the trace only events that satisfy [Q]. *)
Definition emits {W A} (Q : event -> Prop)
  (m : world W -> pyres A * world W) : Prop :=
  forall w, exists evs,
    trace (snd (m w)) = (trace w ++ evs)%list /\ Forall Q evs.

(** The requests a trace holds, in order. *)
Definition requests (evs : list event) : list (string * list (string * json)) :=
  flat_map (fun ev => match ev with
                      | EvGet url params _ => [(url, params)]
                      | _ => []
                      end) evs.

(** The lines of the input before the first [quit], in any letter case. *)
Fixpoint before_quit (stdin : list string) : list string :=
  match stdin with
  | [] => []
  | line :: rest =>
      if (lower line =? "quit")%string then [] else line :: before_quit rest
  end.

Definition has_quit (stdin : list string) : bool :=
  existsb (fun line => (lower line =? "quit")%string) stdin.

(** The request [query_openalex] makes for a concept. *)
Definition request_of (concept : string) : string * list (string * json) :=
  (base_url, query_params concept).

(** The concept as a chart file name spells it: every space turned into
    an underscore, every other character as it is. *)
Definition underscored (concept : string) : string :=
  string_of_list_ascii
    (map (fun c => if Ascii.eqb c " "%char then "_"%char else c)
       (list_ascii_of_string concept)).

(** * Scenarios

    Concrete collaborators over a world with nothing in it, and the payloads
    of the scenarios. *)

Module Scenario.

Definition plt_ok (c : plt_call) (x : unit) : answer unit * unit := (inr tt, x).

Definition savefig_ok (x : unit) : answer string * unit := (inr "iVBORw0KGgo=", x).

Definition get_answering (code : Z) (b : answer json)
  (url : string) (params : list (string * json)) (x : unit)
  : answer http_response * unit :=
  (inr {| status_code := code; body := b |}, x).

Definition chat_ok (req : chat_request) (x : unit) : answer string * unit :=
  (inr "A maturing field.", x).

Definition repr_plain (v : json) : string := "[...]".

Definition invalid_plain (v : json) : string :=
  "1 validation error for State: api_response should be a valid dictionary".

Definition start : world unit := mkWorld tt [].

Definition named (name : string) : json := JObj [("display_name", JStr name)].

Definition authorship (author : string) (institutions : list string) : json :=
  JObj [("author", named author);
        ("institutions", JArr (map named institutions))].

Definition record (year : json) (authorships : list json) : json :=
  JObj [("title", JStr "A paper");
        ("cited_by_count", JInt 12);
        ("publication_year", year);
        ("doi", JStr "https://doi.org/10.1/x");
        ("authorships", JArr authorships)].

Definition payload (count : Z) (results : list json) : json :=
  JObj [("meta", JObj [("count", JInt count)]); ("results", JArr results)].

(** Three records with years 2020, 2021, 2020. *)
Definition payload_years : json :=
  payload 3 [ record (JInt 2020) [authorship "Ada" ["A"]];
              record (JInt 2021) [authorship "Bob" ["A"]];
              record (JInt 2020) [authorship "Ada" ["B"]] ].

(** One record whose authorship lists A and B, another whose authorship
    lists A. *)
Definition payload_AB : json :=
  payload 2 [ record (JInt 2020) [authorship "Ada" ["A"; "B"]];
              record (JInt 2021) [authorship "Bob" ["A"]] ].

(** No record, and a reported count of 0. *)
Definition payload_empty : json := payload 0 [].

(** A record whose publication year is 0, and one of 2020. *)
Definition payload_year0 : json :=
  payload 2 [ record (JInt 0) [authorship "Ada" ["A"]];
              record (JInt 2020) [authorship "Bob" ["A"]] ].

(** A record whose authorship has an author object without a display
    name. *)
Definition payload_nameless : json :=
  payload 1 [ record (JInt 2020)
                [ JObj [("author", JObj [("id", JStr "https://openalex.org/A1")]);
                        ("institutions", JArr [named "A"])] ] ].

(** Statistics with one year, one institution and one author. *)
Definition stats_sample : ResearchStats.t :=
  ResearchStats.mk (JInt 1) [] [(KInt 2020, 1)] [(KStr "A", 1)]
    [(KStr "Ada", 1)] None.

(** Statistics whose institution list is empty. *)
Definition stats_without_institutions : ResearchStats.t :=
  ResearchStats.mk (JInt 1) [] [(KInt 2020, 1)] [] [(KStr "Ada", 1)] None.

(** The statistics of the empty payload, and the report they format to:
    every section header, and no line under any of them. *)
Definition stats_empty : ResearchStats.t :=
  ResearchStats.mk (JInt 0) [] [] [] [] None.

Definition report_empty : string :=
  join_lines
    [ "ðŸ“Š Market Research Insights";
      nl ++ "ðŸ” Found 0 academic papers on this topic";
      nl ++ "ðŸ“ˆ Research Interest:";
      "Year | Number of Papers";
      "-----|----------------";
      nl ++ "ðŸ† Top Cited Papers:";
      "-------------------";
      nl ++ "ðŸ›ï¸ Leading Institutions:";
      "--------------------";
      nl ++ "ðŸ‘¨â€ðŸ”¬ Top Researchers:";
      "----------------" ].

(** Four institution entries, two names, two occurrences each; the name
    met first is the later one in the alphabet. *)
Definition payload_ties : json :=
  payload 2 [ record (JInt 2020) [authorship "Ada" ["Zeta"; "Alpha"]];
              record (JInt 2021) [authorship "Bob" ["Zeta"; "Alpha"]] ].

(** The pipeline over these collaborators. *)
Definition analyze : json -> world unit -> pyres ResearchStats.t * world unit :=
  analyze_research_data unit plt_ok savefig_ok.

Definition draw : ResearchStats.t -> world unit -> pyres chart_map * world unit :=
  create_visualization_charts unit plt_ok savefig_ok.

(** An endpoint that answers 503 with a body that is no JSON. *)
Definition get_503 := get_answering 503 (inl "Expecting value: line 1 column 1 (char 0)").

Definition bot : ResearchBot := {| current_state := None |}.

(** Three records with years 2020, 2021, 2020 and no authorship. *)
Definition payload_bare_years : json :=
  payload 3 [ record (JInt 2020) []; record (JInt 2021) []; record (JInt 2020) [] ].

(** A year given as a number in one record and as text in another. *)
Definition payload_mixed_years : json :=
  payload 2 [ record (JInt 2020) [authorship "Ada" ["A"]];
              record (JStr "2021") [authorship "Bob" ["A"]] ].

(** Seven records, more than the five that are kept. *)
Definition payload_seven : json :=
  payload 70 [ record (JInt 2015) [authorship "Ada" ["A"]];
               record (JInt 2016) [authorship "Bob" ["B"]];
               record (JInt 2017) [authorship "Cyd" ["C"]];
               record (JInt 2018) [authorship "Dan" ["D"]];
               record (JInt 2019) [authorship "Eve" ["E"]];
               record (JInt 2020) [authorship "Fay" ["F"]];
               record (JInt 2021) [authorship "Fay" ["F"]] ].

(** An endpoint that answers 200 with the payload of two institutions. *)
Definition get_200 := get_answering 200 (inr payload_AB).

(** The endpoint answers 200 with a page that is no JSON. *)
Definition response_html : http_response :=
  {| status_code := 200;
     body := inl "Expecting value: line 1 column 1 (char 0)" |}.

Definition get_html := get_answering 200 (body response_html).

(** The endpoint answers 200 with a JSON list. *)
Definition get_list := get_answering 200 (inr (JArr [])).

(** A file system that takes every file, one that takes none, and the
    decoding of the fixed image text. *)
Definition write_ok (name data : string) (x : unit) : answer unit * unit :=
  (inr tt, x).

Definition write_denied (name data : string) (x : unit) : answer unit * unit :=
  (inl "Permission denied", x).

Definition decode_plain (text : string) : string := "PNG".

(** [main] over these collaborators. *)
Definition console (get : string -> list (string * json) -> unit ->
                          answer http_response * unit)
  (stdin : list string) :=
  main unit get chat_ok plt_ok savefig_ok repr_plain invalid_plain write_ok
    decode_plain stdin start.

(** The successful run on the concept [graphene]: what the stages make. *)
Definition world_fetched : world unit :=
  mkWorld tt [EvGet base_url (query_params "graphene") None].

Definition stats_AB : ResearchStats.t :=
  Eval vm_compute in
    match fst (analyze payload_AB world_fetched) with
    | Ok st => st
    | Err _ => stats_empty
    end.

Definition world_analyzed : world unit :=
  Eval vm_compute in snd (analyze payload_AB world_fetched).

Definition report_AB : string :=
  Eval vm_compute in
    match format_insights repr_plain stats_AB with
    | Ok report => report
    | Err _ => EmptyString
    end.

Definition trace_success : list event :=
  Eval vm_compute in
    trace (snd (run unit get_200 chat_ok plt_ok savefig_ok repr_plain
                  invalid_plain bot "graphene" start)).

End Scenario.

(** * Properties *)

(** ** Results and lists of results *)

Lemma rbind_ok {A B} (m : pyres A) (k : A -> pyres B) (b : B) :
  rbind m k = Ok b -> exists a, m = Ok a /\ k a = Ok b.
Proof.
  destruct m as [a|e]; simpl; intros H; [eauto | discriminate].
Qed.

(** Splits a successful chain of [rbind] into its steps. *)
Ltac inv_ok :=
  repeat match goal with
    | H : rbind _ _ = Ok _ |- _ =>
        let a := fresh "v" in
        let E := fresh "E" in
        apply rbind_ok in H; destruct H as (a & E & H)
    | H : Ok _ = Ok _ |- _ => injection H as H
    | H : Err _ = Ok _ |- _ => discriminate H
    | H : (if ?c then _ else _) = Ok _ |- _ =>
        let C := fresh "C" in destruct c eqn:C
    end.

Lemma mapM_ok_map {A B} (f : A -> pyres B) (g : A -> B) (l : list A) (l' : list B) :
  (forall x y, In x l -> f x = Ok y -> y = g x) ->
  mapM f l = Ok l' -> l' = map g l.
Proof.
  revert l'; induction l as [|x l IH]; simpl; intros l' Hf H.
  - now inv_ok.
  - inv_ok. subst l'. f_equal.
    + apply Hf; auto.
    + apply IH; auto.
Qed.

Lemma mapM_ok_length {A B} (f : A -> pyres B) (l : list A) (l' : list B) :
  mapM f l = Ok l' -> List.length l' = List.length l.
Proof.
  revert l'; induction l as [|x l IH]; simpl; intros l' H; inv_ok; subst; simpl; auto.
Qed.

Lemma mapM_ok_each {A B} (f : A -> pyres B) (l : list A) (l' : list B) :
  mapM f l = Ok l' -> forall x, In x l -> exists y, f x = Ok y.
Proof.
  revert l'; induction l as [|x l IH]; simpl; intros l' H z Hz; [tauto|].
  inv_ok. destruct Hz as [<-|Hz]; eauto.
Qed.

Lemma concat_map_flat_map {A B} (g : A -> list B) (l : list A) :
  List.concat (map g l) = flat_map g l.
Proof. induction l; simpl; congruence. Qed.

(** ** Equality and order of keys *)

Lemma key_eqb_norm a b : key_eqb a b = true <-> key_norm a = key_norm b.
Proof.
  unfold key_eqb.
  destruct a as [|x|x|x], b as [|y|y|y]; simpl; split; intros H;
    try discriminate; try reflexivity;
    try (apply Z.eqb_eq in H; congruence);
    try (injection H as ->; apply Z.eqb_refl);
    try (apply String.eqb_eq in H; congruence);
    try (injection H as ->; apply String.eqb_refl).
Qed.

Lemma key_eqb_refl a : key_eqb a a = true.
Proof. now apply key_eqb_norm. Qed.

Lemma key_eqb_sym a b : key_eqb a b = key_eqb b a.
Proof.
  destruct (key_eqb a b) eqn:E1, (key_eqb b a) eqn:E2; auto.
  - apply key_eqb_norm in E1. symmetry in E1. apply key_eqb_norm in E1. congruence.
  - apply key_eqb_norm in E2. symmetry in E2. apply key_eqb_norm in E2. congruence.
Qed.

Lemma key_eqb_trans a b c :
  key_eqb a b = true -> key_eqb b c = true -> key_eqb a c = true.
Proof. rewrite !key_eqb_norm; congruence. Qed.

Lemma key_eqb_congr a b c :
  key_eqb a b = true -> key_eqb a c = key_eqb b c.
Proof.
  intros H. destruct (key_eqb b c) eqn:E.
  - eapply key_eqb_trans; eauto.
  - destruct (key_eqb a c) eqn:E'; auto.
    rewrite key_eqb_sym in H. rewrite (key_eqb_trans _ _ _ H E') in E. discriminate.
Qed.

Lemma ascii_compare_trans a b c :
  Ascii.compare a b = Lt -> Ascii.compare b c = Lt -> Ascii.compare a c = Lt.
Proof.
  unfold Ascii.compare. rewrite !N.compare_lt_iff. lia.
Qed.

Lemma string_compare_trans a : forall b c,
  String.compare a b = Lt -> String.compare b c = Lt -> String.compare a c = Lt.
Proof.
  induction a as [|x a IH]; intros [|y b] [|z c]; simpl; try congruence.
  destruct (Ascii.compare x y) eqn:Exy; try discriminate.
  - apply Ascii.compare_eq_iff in Exy; subst y.
    destruct (Ascii.compare x z); try discriminate; auto. apply IH.
  - intros _. destruct (Ascii.compare y z) eqn:Eyz; try discriminate.
    + apply Ascii.compare_eq_iff in Eyz; subst z. now rewrite Exy.
    + now rewrite (ascii_compare_trans _ _ _ Exy Eyz).
Qed.

Lemma string_ltb_trans a b c :
  (a <? b)%string = true -> (b <? c)%string = true -> (a <? c)%string = true.
Proof.
  unfold String.ltb. intros H1 H2.
  destruct (String.compare a b) eqn:E1; try discriminate.
  destruct (String.compare b c) eqn:E2; try discriminate.
  now rewrite (string_compare_trans _ _ _ E1 E2).
Qed.

Lemma string_ltb_connex a b :
  (a <? b)%string = false -> (a =? b)%string = false -> (b <? a)%string = true.
Proof.
  unfold String.ltb. rewrite (String.compare_antisym b a).
  destruct (String.compare a b) eqn:E; simpl; auto; try discriminate.
  apply String.compare_eq_iff in E. subst. rewrite String.eqb_refl. discriminate.
Qed.

Lemma key_below_trans a b c : key_below a b -> key_below b c -> key_below a c.
Proof.
  unfold key_below, key_lt.
  destruct (key_norm a), (key_norm b), (key_norm c); try discriminate.
  - intros H1 H2. injection H1 as H1. injection H2 as H2. f_equal. lia.
  - intros H1 H2. injection H1 as H1. injection H2 as H2. f_equal.
    eapply string_ltb_trans; eauto.
Qed.

Lemma key_below_connex a b :
  key_lt a b = Ok false -> key_eqb a b = false -> key_below b a.
Proof.
  unfold key_below, key_lt, key_eqb.
  destruct (key_norm a), (key_norm b); try discriminate.
  - intros H1 H2. injection H1 as H1. f_equal. lia.
  - intros H1 H2. injection H1 as H1. f_equal. now apply string_ltb_connex.
Qed.

(** ** [Counter] *)

Lemma occurs_true k xs :
  occurs k xs = true <-> exists y, In y xs /\ key_eqb k y = true.
Proof. unfold occurs. apply existsb_exists. Qed.

Lemma occurs_false k xs :
  occurs k xs = false <-> forall y, In y xs -> key_eqb k y = false.
Proof.
  split.
  - intros H y Hy. destruct (key_eqb k y) eqn:E; auto.
    assert (occurs k xs = true) by (apply occurs_true; eauto). congruence.
  - intros H. destruct (occurs k xs) eqn:E; auto.
    apply occurs_true in E. destruct E as (y & Hy & E). rewrite H in E; auto.
Qed.

Lemma first_index_congr a b xs :
  key_eqb a b = true -> first_index a xs = first_index b xs.
Proof.
  intros H. induction xs as [|x xs IH]; simpl; auto.
  now rewrite IH, (key_eqb_congr _ _ _ H).
Qed.

Lemma count_key_congr a b xs :
  key_eqb a b = true -> count_key a xs = count_key b xs.
Proof.
  intros H. unfold count_key. induction xs as [|x xs IH]; simpl; auto.
  rewrite (key_eqb_congr _ _ _ H). destruct (key_eqb b x); simpl; auto.
Qed.

Lemma first_index_occurs k xs :
  occurs k xs = true -> first_index k xs < List.length xs.
Proof.
  unfold occurs. induction xs as [|x xs IH]; simpl; [discriminate|].
  destruct (key_eqb k x); simpl; intros H; [lia|]. apply IH in H. lia.
Qed.

Lemma first_index_app_occurs k xs ys :
  occurs k xs = true -> first_index k (xs ++ ys) = first_index k xs.
Proof.
  unfold occurs. induction xs as [|x xs IH]; simpl; [discriminate|].
  destruct (key_eqb k x); simpl; auto.
Qed.

Lemma first_index_app_absent k xs ys :
  occurs k xs = false ->
  first_index k (xs ++ ys) = List.length xs + first_index k ys.
Proof.
  unfold occurs. induction xs as [|x xs IH]; simpl; auto.
  destruct (key_eqb k x); simpl; [discriminate|]. auto.
Qed.

Lemma first_index_lt_neq a b xs :
  first_index a xs < first_index b xs -> key_eqb a b = false.
Proof.
  intros H. destruct (key_eqb a b) eqn:E; auto.
  rewrite (first_index_congr _ _ _ E) in H. lia.
Qed.

Lemma count_key_occurs k xs : occurs k xs = true <-> 0 < count_key k xs.
Proof.
  unfold occurs, count_key. induction xs as [|x xs IH]; simpl.
  - split; [discriminate | lia].
  - destruct (key_eqb k x); simpl; [split; auto; lia | exact IH].
Qed.

Lemma counter_get_incr k x c :
  counter_get k (counter_incr x c) =
  counter_get k c + (if key_eqb k x then 1 else 0).
Proof.
  induction c as [|[k' n] c IH]; simpl.
  - destruct (key_eqb k x); reflexivity.
  - destruct (key_eqb k' x) eqn:E; simpl.
    + rewrite (key_eqb_sym k k'), (key_eqb_congr _ _ k E), (key_eqb_sym x k).
      destruct (key_eqb k x); lia.
    + destruct (key_eqb k k') eqn:E'; auto.
      rewrite (key_eqb_congr _ _ x E'), E. lia.
Qed.

Lemma counter_get_fold k xs : forall c,
  counter_get k (fold_left (fun c k => counter_incr k c) xs c) =
  counter_get k c + count_key k xs.
Proof.
  induction xs as [|x xs IH]; intros c; simpl.
  - unfold count_key; simpl; lia.
  - rewrite IH, counter_get_incr. unfold count_key; simpl.
    destruct (key_eqb k x); simpl; lia.
Qed.

(** [c[k]] after [c = Counter(xs)] is the number of elements [==] to [k]. *)
Lemma counter_get_Counter k xs : counter_get k (Counter xs) = count_key k xs.
Proof. unfold Counter. now rewrite counter_get_fold. Qed.

Lemma Counter_snoc xs x : Counter (xs ++ [x]) = counter_incr x (Counter xs).
Proof. unfold Counter. now rewrite fold_left_app. Qed.

Lemma counter_incr_keys x c :
  map fst (counter_incr x c) =
  if occurs x (map fst c) then map fst c else (map fst c ++ [x])%list.
Proof.
  induction c as [|[k n] c IH]; simpl; auto.
  rewrite (key_eqb_sym x k).
  destruct (key_eqb k x); simpl; auto.
  rewrite IH. destruct (occurs x (map fst c)); reflexivity.
Qed.

Lemma Counter_keys_in xs : forall k, In k (map fst (Counter xs)) -> In k xs.
Proof.
  induction xs as [|x xs IH] using rev_ind; intros k.
  - simpl; tauto.
  - rewrite Counter_snoc, counter_incr_keys, in_app_iff.
    destruct (occurs x (map fst (Counter xs))).
    + auto.
    + rewrite in_app_iff. simpl. intuition.
Qed.

Lemma counter_get_pos k c :
  0 < counter_get k c ->
  exists k', In (k', counter_get k c) c /\ key_eqb k k' = true.
Proof.
  induction c as [|[k' n] c IH]; simpl; [lia|].
  destruct (key_eqb k k') eqn:E; intros H.
  - exists k'; auto.
  - destruct (IH H) as (k2 & Hin & Hk). exists k2; auto.
Qed.

(** Every element of [xs] has its key in [Counter xs]. *)
Lemma Counter_covers xs x :
  occurs x xs = true ->
  exists k, In (k, count_key x xs) (Counter xs) /\ key_eqb x k = true.
Proof.
  intros H. apply count_key_occurs in H.
  rewrite <- counter_get_Counter in *. now apply counter_get_pos.
Qed.

Lemma occurs_Counter_keys x xs :
  occurs x (map fst (Counter xs)) = occurs x xs.
Proof.
  destruct (occurs x xs) eqn:E.
  - destruct (Counter_covers _ _ E) as (k & Hin & Hk).
    apply occurs_true. exists k. split; auto.
    change k with (fst (k, count_key x xs)). now apply in_map.
  - apply occurs_false. intros y Hy. apply Counter_keys_in in Hy.
    apply (proj1 (occurs_false _ _) E); auto.
Qed.

(** ** Lists whose ordered pairs all satisfy a relation *)

Lemma StronglySorted_snoc {A} (R : A -> A -> Prop) (l : list A) (x : A) :
  StronglySorted R l -> Forall (fun a => R a x) l ->
  StronglySorted R (l ++ [x]).
Proof.
  induction 1 as [|a l Hl IH Ha]; simpl; intros HF.
  - repeat constructor.
  - inversion HF; subst. constructor; auto.
    apply Forall_app; split; auto.
Qed.

Lemma StronglySorted_weaken {A} (R R' : A -> A -> Prop) (l : list A) :
  (forall a b, In a l -> In b l -> R a b -> R' a b) ->
  StronglySorted R l -> StronglySorted R' l.
Proof.
  intros HR H. induction H as [|a l Hl IH Ha]; constructor.
  - apply IH. intros; apply HR; simpl; auto.
  - rewrite Forall_forall in *. intros b Hb. apply HR; simpl; auto.
Qed.

Lemma StronglySorted_map {A B} (f : A -> B) (R : B -> B -> Prop) (l : list A) :
  StronglySorted R (map f l) -> StronglySorted (fun a b => R (f a) (f b)) l.
Proof.
  induction l as [|a l IH]; simpl; intros H; constructor; inversion H; subst; auto.
  rewrite Forall_forall in *. intros b Hb. apply H3. now apply in_map.
Qed.

Lemma In_firstn {A} (n : nat) (l : list A) (x : A) :
  In x (firstn n l) -> In x l.
Proof.
  intros H. rewrite <- (firstn_skipn n l). apply in_app_iff. now left.
Qed.

Lemma StronglySorted_firstn {A} (R : A -> A -> Prop) (n : nat) : forall l,
  StronglySorted R l -> StronglySorted R (firstn n l).
Proof.
  induction n as [|n IH]; intros l H; simpl; [constructor|].
  destruct H as [|a l Hl Ha]; constructor; auto.
  rewrite Forall_forall in *. intros b Hb. apply Ha.
  eapply In_firstn; eauto.
Qed.

Lemma StronglySorted_nth {A} (R : A -> A -> Prop) (l : list A) :
  StronglySorted R l ->
  forall i j a b, i < j -> nth_error l i = Some a -> nth_error l j = Some b ->
  R a b.
Proof.
  induction 1 as [|x l Hl IH Hx]; intros i j a b Hij Hi Hj.
  - destruct i; discriminate.
  - destruct j as [|j]; [lia|]. simpl in Hj. destruct i as [|i]; simpl in Hi.
    + injection Hi as <-. rewrite Forall_forall in Hx. apply Hx.
      eapply nth_error_In; eauto.
    + apply (IH i j a b); auto; lia.
Qed.

Lemma StronglySorted_app_pair {A} (R : A -> A -> Prop) (l1 l2 : list A) :
  StronglySorted R (l1 ++ l2) ->
  forall a b, In a l1 -> In b l2 -> R a b.
Proof.
  induction l1 as [|x l1 IH]; simpl; intros H a b Ha Hb; [tauto|].
  inversion H; subst. destruct Ha as [<-|Ha].
  - rewrite Forall_forall in H3. apply H3. apply in_app_iff; auto.
  - eapply IH; eauto.
Qed.

(** ** The order of the keys of a [Counter] *)

(** The keys of [Counter xs] stand in the order of their first
    occurrence in [xs]. *)
Lemma Counter_keys_order xs :
  StronglySorted (fun a b => first_index a xs < first_index b xs)
    (map fst (Counter xs)).
Proof.
  induction xs as [|x xs IH] using rev_ind.
  - constructor.
  - rewrite Counter_snoc, counter_incr_keys, occurs_Counter_keys.
    assert (Hold : forall a, In a (map fst (Counter xs)) ->
                     first_index a (xs ++ [x]) = first_index a xs
                     /\ first_index a xs < List.length xs).
    { intros a Ha. apply Counter_keys_in in Ha.
      assert (Ho : occurs a xs = true).
      { apply occurs_true. exists a. split; auto. apply key_eqb_refl. }
      split; [now apply first_index_app_occurs | now apply first_index_occurs]. }
    destruct (occurs x xs) eqn:Ex.
    + eapply StronglySorted_weaken; [|exact IH].
      intros a b Ha Hb Hab. simpl in Hab.
      destruct (Hold a Ha) as [-> _], (Hold b Hb) as [-> _]. exact Hab.
    + apply StronglySorted_snoc.
      * eapply StronglySorted_weaken; [|exact IH].
        intros a b Ha Hb Hab. simpl in Hab.
        destruct (Hold a Ha) as [-> _], (Hold b Hb) as [-> _]. exact Hab.
      * apply Forall_forall. intros a Ha.
        destruct (Hold a Ha) as [-> Hlt].
        rewrite (first_index_app_absent _ _ _ Ex). lia.
Qed.

Lemma Counter_entry_order xs :
  StronglySorted
    (fun a b => first_index (fst a) xs < first_index (fst b) xs) (Counter xs).
Proof.
  apply (StronglySorted_map fst
           (fun a b => first_index a xs < first_index b xs)).
  apply Counter_keys_order.
Qed.

Lemma counter_get_in k n c :
  StronglySorted (fun a b => key_eqb (fst a) (fst b) = false) c ->
  In (k, n) c -> counter_get k c = n.
Proof.
  induction 1 as [|[k' n'] c Hc IH Hk]; simpl; [tauto|].
  intros [E|Hin].
  - injection E as -> ->. now rewrite key_eqb_refl.
  - rewrite Forall_forall in Hk. specialize (Hk _ Hin). simpl in Hk.
    rewrite key_eqb_sym, Hk. auto.
Qed.

Lemma Counter_distinct xs :
  StronglySorted (fun a b => key_eqb (fst a) (fst b) = false) (Counter xs).
Proof.
  eapply StronglySorted_weaken; [|apply Counter_entry_order].
  intros a b _ _. apply first_index_lt_neq.
Qed.

(** An entry of [Counter xs] carries the number of occurrences of its key,
    and the key is an element of [xs]. *)
Lemma Counter_entry k n xs :
  In (k, n) (Counter xs) -> In k xs /\ n = count_key k xs /\ 0 < n.
Proof.
  intros H.
  assert (Hk : In k xs).
  { apply Counter_keys_in. change k with (fst (k, n)). now apply in_map. }
  assert (Hn : n = count_key k xs).
  { rewrite <- counter_get_Counter. symmetry.
    apply counter_get_in; auto. apply Counter_distinct. }
  repeat split; auto. subst n. apply count_key_occurs, occurs_true.
  exists k. split; auto. apply key_eqb_refl.
Qed.

(** ** [most_common] *)

Lemma insert_desc_perm x l : Permutation (x :: l) (insert_desc x l).
Proof.
  induction l as [|y l IH]; simpl; auto.
  destruct (snd x <? snd y)%nat; auto.
  rewrite perm_swap. now constructor.
Qed.

Lemma sort_desc_perm l : Permutation l (sort_desc l).
Proof.
  induction l as [|x l IH]; simpl; auto.
  rewrite <- insert_desc_perm. now constructor.
Qed.

Lemma insert_desc_sorted (rk : pykey * nat -> nat) x l :
  let R := fun a b => snd b < snd a \/ (snd a = snd b /\ rk a < rk b) in
  StronglySorted R l -> Forall (fun b => rk x < rk b) l ->
  StronglySorted R (insert_desc x l).
Proof.
  intros R. induction 1 as [|y l Hl IH Hy]; simpl; intros HF.
  - repeat constructor.
  - inversion HF as [|? ? Hxy HF']; subst.
    destruct (Nat.ltb_spec (snd x) (snd y)) as [Hlt|Hge].
    + constructor; auto.
      eapply Permutation_Forall; [apply insert_desc_perm|].
      constructor; [left; exact Hlt | exact Hy].
    + constructor; [constructor; auto|].
      constructor.
      * unfold R. destruct (Nat.eq_dec (snd x) (snd y)); [right|left]; auto; lia.
      * rewrite Forall_forall in *. intros z Hz.
        specialize (Hy z Hz). specialize (HF' z Hz). unfold R in *.
        destruct (Nat.eq_dec (snd x) (snd z)); [right|left]; auto; lia.
Qed.

Lemma sort_desc_sorted (rk : pykey * nat -> nat) l :
  StronglySorted (fun a b => rk a < rk b) l ->
  StronglySorted
    (fun a b => snd b < snd a \/ (snd a = snd b /\ rk a < rk b))
    (sort_desc l).
Proof.
  induction 1 as [|x l Hl IH Hx]; simpl; [constructor|].
  apply insert_desc_sorted; auto.
  eapply Permutation_Forall; [apply sort_desc_perm | exact Hx].
Qed.

(** The whole [sorted(..., reverse=True)] list of a [Counter] is in
    [ranks_before] order. *)
Lemma sort_desc_Counter xs :
  StronglySorted (ranks_before xs) (sort_desc (Counter xs)).
Proof.
  apply (sort_desc_sorted (fun e => first_index (fst e) xs)).
  apply Counter_entry_order.
Qed.

Lemma most_common_sorted n xs :
  StronglySorted (ranks_before xs) (most_common n (Counter xs)).
Proof. apply StronglySorted_firstn, sort_desc_Counter. Qed.

Lemma most_common_in n c e : In e (most_common n c) -> In e c.
Proof.
  intros H. apply In_firstn in H.
  eapply Permutation_in; [symmetry; apply sort_desc_perm | exact H].
Qed.

Lemma most_common_length n c : List.length (most_common n c) <= n.
Proof. apply firstn_le_length. Qed.

(** ** [sorted] on the items of a [Counter] *)

Lemma insert_asc_perm x : forall l r,
  insert_asc x l = Ok r -> Permutation (x :: l) r.
Proof.
  induction l as [|y l IH]; simpl; intros r H.
  - inv_ok. now subst.
  - inv_ok; subst.
    + rewrite perm_swap. constructor. now apply IH.
    + reflexivity.
Qed.

Lemma py_sorted_perm : forall l s, py_sorted l = Ok s -> Permutation l s.
Proof.
  induction l as [|x l IH]; simpl; intros s H.
  - inv_ok. now subst.
  - inv_ok. rewrite <- (insert_asc_perm _ _ _ H). constructor. now apply IH.
Qed.

Lemma insert_asc_sorted x : forall l r,
  StronglySorted (fun a b => key_below (fst a) (fst b)) l ->
  Forall (fun y => key_eqb (fst y) (fst x) = false) l ->
  insert_asc x l = Ok r ->
  StronglySorted (fun a b => key_below (fst a) (fst b)) r.
Proof.
  induction l as [|y l IH]; simpl; intros r Hs Hd H.
  - inv_ok. subst. repeat constructor.
  - inversion Hs as [|? ? Hl Hy]; subst. inversion Hd as [|? ? Hyx Hd']; subst.
    unfold item_lt in H. rewrite Hyx in H. inv_ok; subst.
    + constructor; [eapply IH; eauto|].
      eapply Permutation_Forall; [eapply insert_asc_perm; eauto|].
      constructor; auto.
    + assert (Hxy : key_below (fst x) (fst y)) by now apply key_below_connex.
      constructor; auto. constructor; auto.
      rewrite Forall_forall in *. intros z Hz.
      eapply key_below_trans; eauto.
Qed.

(** When [sorted] returns, the keys are in strictly ascending order. *)
Lemma py_sorted_sorted : forall l s,
  StronglySorted (fun a b => key_eqb (fst a) (fst b) = false) l ->
  py_sorted l = Ok s ->
  StronglySorted (fun a b => key_below (fst a) (fst b)) s.
Proof.
  induction l as [|x l IH]; simpl; intros s Hd H.
  - inv_ok. subst. constructor.
  - inversion Hd as [|? ? Hl Hx]; subst. inv_ok.
    eapply insert_asc_sorted; [eapply IH; eauto | | exact H].
    eapply Permutation_Forall; [eapply py_sorted_perm; eauto|].
    rewrite Forall_forall in *. intros y Hy.
    rewrite key_eqb_sym. auto.
Qed.

(** ** The aggregation reads the record sequence *)

Lemma dict_get_ok d k def v :
  dict_get d k def = Ok v ->
  exists kvs, d = JObj kvs /\
              v = match assoc k kvs with Some x => x | None => def end.
Proof. destruct d; simpl; intros H; try discriminate. injection H as <-. eauto. Qed.

Lemma dict_get_field d k v : dict_get d k JNull = Ok v -> v = field k d.
Proof. intros H. apply dict_get_ok in H. destruct H as (kvs & -> & ->). reflexivity. Qed.

Lemma dict_get_truthy d k def v :
  dict_get d k def = Ok v -> py_truthy (field k d) = true -> v = field k d.
Proof.
  intros H T. apply dict_get_ok in H. destruct H as (kvs & -> & ->).
  simpl in *. destruct (assoc k kvs); [reflexivity | discriminate].
Qed.

Lemma falsy_elems v : py_truthy v = false -> elems v = [].
Proof. destruct v as [| | | |[|]|]; simpl; auto; discriminate. Qed.

(** A loop whose body needs a [dict] runs to its end only over the items
    of a list, or over nothing. *)
Lemma py_iter_elems v l :
  py_iter v = Ok l ->
  (forall x, In x l -> exists kvs, x = JObj kvs) ->
  l = elems v.
Proof.
  destruct v as [| | |s|items|kvs]; simpl; intros H Hd; try discriminate;
    injection H as <-; auto.
  - destruct s as [|c s]; auto.
    destruct (Hd (JStr (String c EmptyString))) as (? & ?);
      [left; reflexivity | discriminate].
  - destruct kvs as [|[k v] kvs]; auto.
    destruct (Hd (JStr k)) as (? & ?); [left; reflexivity | discriminate].
Qed.

Lemma loop_elems {B} (f : json -> pyres B) v l l' :
  (forall x y, f x = Ok y -> exists kvs, x = JObj kvs) ->
  py_iter v = Ok l -> mapM f l = Ok l' -> l = elems v.
Proof.
  intros Hf Hi Hm. apply py_iter_elems; auto.
  intros x Hx. destruct (mapM_ok_each _ _ _ Hm x Hx) as (y & Hy). eauto.
Qed.

Ltac needs_dict :=
  let x := fresh "x" in
  let y := fresh "y" in
  let H := fresh "H" in
  intros x y H; cbv beta in H;
  first
    [ apply dict_get_ok in H; destruct H as (? & -> & _); eauto
    | match type of H with
      | ?f _ = Ok _ => unfold f in H
      end;
      apply rbind_ok in H; destruct H as (? & H & _);
      apply dict_get_ok in H; destruct H as (? & -> & _); eauto ].

Lemma paper_year_spec r ys :
  paper_year r = Ok ys ->
  ys = filter py_truthy [field "publication_year" r].
Proof.
  unfold paper_year. intros H. inv_ok.
  - apply dict_get_field in E, E0. subst. simpl. now rewrite C.
  - apply dict_get_field in E. subst. simpl. now rewrite C.
Qed.

Lemma record_years_flat rs :
  flat_map (fun r => filter py_truthy [field "publication_year" r]) rs =
  record_years rs.
Proof.
  unfold record_years. induction rs as [|r rs IH]; simpl; auto.
  destruct (py_truthy (field "publication_year" r)); simpl; [f_equal|]; exact IH.
Qed.

Lemma authorship_institutions_spec a names :
  authorship_institutions a = Ok names ->
  names = authorship_institution_names a.
Proof.
  unfold authorship_institutions, authorship_institution_names. intros H. inv_ok.
  - apply dict_get_field in E. subst v.
    apply (dict_get_truthy _ _ _ _ E0) in C. subst v0.
    assert (v1 = elems (field "institutions" a)) as ->.
    { eapply loop_elems; [|exact E1|exact H]. needs_dict. }
    eapply mapM_ok_map; [|exact H].
    intros x y _ Hx. now apply dict_get_field.
  - apply dict_get_field in E. subst. now rewrite falsy_elems.
Qed.

Lemma authorship_author_spec a names :
  authorship_author a = Ok names -> names = authorship_author_entry a.
Proof.
  unfold authorship_author, authorship_author_entry. intros H. inv_ok.
  - apply dict_get_ok in E. destruct E as (kvs & -> & ->).
    simpl in *. destruct (assoc "author" kvs) eqn:Ea; [|discriminate].
    injection E0 as <-. apply dict_get_field in E1. subst. now rewrite C.
  - apply dict_get_field in E. subst. now rewrite C.
Qed.

Lemma paper_entries_spec r e :
  paper_entries r = Ok e ->
  fst e = flat_map authorship_institution_names (authorships r) /\
  snd e = flat_map authorship_author_entry (authorships r).
Proof.
  unfold paper_entries, authorships. intros H. inv_ok. subst e. simpl.
  apply dict_get_ok in E. destruct E as (kvs & -> & ->).
  simpl in E2. injection E2 as <-.
  assert (Hl : forall l, py_iter match assoc "authorships" kvs with
                              | Some x => x | None => JArr [] end = Ok l ->
                    (forall x, In x l -> exists kvs, x = JObj kvs) ->
                    l = elems (field "authorships" (JObj kvs))).
  { intros l Hi Hd. simpl. destruct (assoc "authorships" kvs).
    - now apply py_iter_elems.
    - simpl in Hi. now injection Hi as <-. }
  split.
  - rewrite <- (Hl v0 E0).
    + rewrite <- concat_map_flat_map. f_equal.
      eapply mapM_ok_map; [|exact E1].
      intros x y _ Hx. now apply authorship_institutions_spec.
    + intros x Hx. destruct (mapM_ok_each _ _ _ E1 x Hx) as (y & Hy).
      revert Hy. generalize x y. needs_dict.
  - rewrite <- (Hl v3 E3).
    + rewrite <- concat_map_flat_map. f_equal.
      eapply mapM_ok_map; [|exact E4].
      intros x y _ Hx. now apply authorship_author_spec.
    + intros x Hx. destruct (mapM_ok_each _ _ _ E4 x Hx) as (y & Hy).
      revert Hy. generalize x y. needs_dict.
Qed.

Lemma mapM_ok_proj {A B C} (f : A -> pyres B) (h : B -> C) (g : A -> C)
  (l : list A) (l' : list B) :
  (forall x y, f x = Ok y -> h y = g x) ->
  mapM f l = Ok l' -> map h l' = map g l.
Proof.
  intros Hf. revert l'; induction l as [|x l IH]; simpl; intros l' H.
  - inv_ok. now subst.
  - inv_ok. subst l'. simpl. f_equal; auto.
Qed.

Lemma get_iter_elems d k v l :
  dict_get d k (JArr []) = Ok v -> py_iter v = Ok l ->
  (forall x, In x l -> exists kvs, x = JObj kvs) ->
  l = elems (field k d).
Proof.
  intros Hg Hi Hd. apply dict_get_ok in Hg. destruct Hg as (kvs & -> & ->).
  simpl. destruct (assoc k kvs).
  - now apply py_iter_elems.
  - simpl in Hi. now injection Hi as <-.
Qed.

Lemma slice_iter_length n v h l :
  py_slice_to n v = Ok h -> py_iter h = Ok l ->
  (forall x, In x l -> exists kvs, x = JObj kvs) ->
  List.length l <= n.
Proof.
  intros Hs Hi Hd. rewrite (py_iter_elems _ _ Hi Hd).
  destruct v; simpl in Hs; try discriminate; injection Hs as <-; simpl.
  - lia.
  - apply firstn_le_length.
Qed.

(** What a successful [build_stats] has computed, in terms of the record
    sequence of the payload. *)
Lemma build_stats_spec p st :
  build_stats p = Ok st ->
  exists ykeys ikeys akeys,
    mapM to_key (record_years (records p)) = Ok ykeys /\
    mapM to_key (institution_names (records p)) = Ok ikeys /\
    mapM to_key (author_entries (records p)) = Ok akeys /\
    py_sorted (Counter ykeys) = Ok (ResearchStats.yearly_trends st) /\
    ResearchStats.top_institutions st = most_common 5 (Counter ikeys) /\
    ResearchStats.top_authors st = most_common 5 (Counter akeys) /\
    List.length (ResearchStats.top_papers st) <= 5 /\
    ResearchStats.charts st = None.
Proof.
  unfold build_stats. intros H. inv_ok. subst st. simpl.
  assert (Hp : v5 = records p).
  { eapply get_iter_elems; [exact E|exact E5|].
    intros x Hx. destruct (mapM_ok_each _ _ _ E6 x Hx) as (y & Hy).
    revert Hy. generalize x y. needs_dict. }
  assert (Hp' : v8 = records p).
  { eapply get_iter_elems; [exact E|exact E8|].
    intros x Hx. destruct (mapM_ok_each _ _ _ E9 x Hx) as (y & Hy).
    revert Hy. generalize x y. needs_dict. }
  subst v5 v8.
  exists v7, v10, v11. repeat split; auto.
  - rewrite <- E7. f_equal. rewrite <- record_years_flat, <- concat_map_flat_map.
    f_equal. symmetry. eapply mapM_ok_map; [|exact E6].
    intros x y _ Hx. now apply paper_year_spec.
  - rewrite <- E10. f_equal. unfold institution_names.
    rewrite <- concat_map_flat_map. f_equal. symmetry.
    eapply mapM_ok_proj; [|exact E9].
    intros x y Hx. now apply paper_entries_spec.
  - rewrite <- E11. f_equal. unfold author_entries.
    rewrite <- concat_map_flat_map. f_equal. symmetry.
    eapply mapM_ok_proj; [|exact E9].
    intros x y Hx. now apply paper_entries_spec.
  - rewrite (mapM_ok_length _ _ _ E4).
    eapply slice_iter_length; [exact E2|exact E3|].
    intros x Hx. destruct (mapM_ok_each _ _ _ E4 x Hx) as (y & Hy).
    revert Hy. generalize x y. needs_dict.
Qed.

(** ** Values and their keys *)

Lemma to_keys_of vs ks : mapM to_key vs = Ok ks -> ks = keys_of vs.
Proof.
  intros H. eapply mapM_ok_map; [|exact H].
  intros x y _ Hx. unfold key_of. now rewrite Hx.
Qed.

Lemma to_keys_count k : forall vs ks,
  mapM to_key vs = Ok ks -> count_key k ks = occurrences k vs.
Proof.
  unfold count_key, occurrences.
  induction vs as [|v vs IH]; simpl; intros ks H; inv_ok; subst; auto.
  simpl. unfold is_key at 1. rewrite E.
  destruct (key_eqb k v0); simpl; auto.
Qed.

Lemma to_keys_in k : forall vs ks,
  mapM to_key vs = Ok ks -> In k ks -> In (of_key k) vs.
Proof.
  induction vs as [|v vs IH]; simpl; intros ks H Hin; inv_ok; subst.
  - destruct Hin.
  - destruct Hin as [<-|Hin]; [left|right; eauto].
    destruct v; simpl in E; try discriminate; injection E as <-; reflexivity.
Qed.

Lemma to_keys_occurs v : forall vs ks,
  mapM to_key vs = Ok ks -> In v vs ->
  exists k, to_key v = Ok k /\ In k ks.
Proof.
  induction vs as [|x vs IH]; simpl; intros ks H Hin; [tauto|].
  inv_ok; subst. destruct Hin as [<-|Hin].
  - exists v0. simpl; auto.
  - destruct (IH _ E0 Hin) as (k & Hk & Hk'). exists k. simpl; auto.
Qed.

(** ** The tie-break of [most_common] *)

Lemma most_common_tie_break xs m a b n j :
  nth_error (most_common m (Counter xs)) j = Some (b, n) ->
  count_key a xs = n ->
  first_index a xs < first_index b xs ->
  exists i a', i < j
               /\ nth_error (most_common m (Counter xs)) i = Some (a', n)
               /\ key_eqb a a' = true.
Proof.
  intros Hj Hn Hlt.
  assert (Hb : In (b, n) (most_common m (Counter xs)))
    by (eapply nth_error_In; eauto).
  assert (Hpos : 0 < n).
  { apply most_common_in, Counter_entry in Hb. tauto. }
  assert (Ho : occurs a xs = true) by (apply count_key_occurs; lia).
  destruct (Counter_covers _ _ Ho) as (a' & Ha' & Heq). rewrite Hn in Ha'.
  assert (Hfi : first_index a' xs = first_index a xs)
    by (symmetry; now apply first_index_congr).
  assert (Hno : ~ ranks_before xs (b, n) (a', n)).
  { unfold ranks_before; simpl. lia. }
  pose proof (sort_desc_Counter xs) as Hs.
  rewrite <- (firstn_skipn m (sort_desc (Counter xs))) in Hs.
  assert (Hin : In (a', n) (sort_desc (Counter xs)))
    by (eapply Permutation_in; [apply sort_desc_perm | exact Ha']).
  rewrite <- (firstn_skipn m (sort_desc (Counter xs))) in Hin.
  apply in_app_or in Hin. destruct Hin as [Hin|Hin].
  - apply In_nth_error in Hin. destruct Hin as (i & Hi).
    exists i, a'. repeat split; auto.
    destruct (Nat.lt_trichotomy i j) as [?|[->|Hgt]]; auto.
    + unfold most_common in Hj. rewrite Hi in Hj. injection Hj as ->. lia.
    + exfalso. apply Hno.
      eapply (StronglySorted_nth _ _ (most_common_sorted m xs) j i); eauto.
  - exfalso. apply Hno. eapply StronglySorted_app_pair; eauto.
Qed.

(** ** Entries of the statistics *)

Lemma occurrences_records k rs :
  occurrences k (record_years rs) =
  List.length
    (filter (fun r => py_truthy (field "publication_year" r)
                      && is_key k (field "publication_year" r)) rs).
Proof.
  unfold occurrences, record_years. induction rs as [|r rs IH]; simpl; auto.
  destruct (py_truthy (field "publication_year" r)); simpl; auto.
  destruct (is_key k (field "publication_year" r)); simpl; auto.
Qed.

Lemma In_author_entries v rs :
  In v (author_entries rs) ->
  exists r a, In r rs /\ In a (authorships r) /\
              py_truthy (field "author" a) = true /\
              field "display_name" (field "author" a) = v.
Proof.
  unfold author_entries. rewrite in_flat_map. intros (r & Hr & H).
  rewrite in_flat_map in H. destruct H as (a & Ha & H).
  unfold authorship_author_entry in H.
  destruct (py_truthy (field "author" a)) eqn:T; simpl in H; [|tauto].
  destruct H as [<-|[]]. eauto 6.
Qed.

Lemma In_institution_names v rs :
  In v (institution_names rs) ->
  exists r a i, In r rs /\ In a (authorships r) /\
                In i (elems (field "institutions" a)) /\
                field "display_name" i = v.
Proof.
  unfold institution_names. rewrite in_flat_map. intros (r & Hr & H).
  rewrite in_flat_map in H. destruct H as (a & Ha & H).
  unfold authorship_institution_names in H. rewrite in_map_iff in H.
  destruct H as (i & <- & Hi). eauto 8.
Qed.

(** An entry of the top list of a [Counter] built from the values [vs]. *)
Lemma top_entry vs ks m k n :
  mapM to_key vs = Ok ks ->
  In (k, n) (most_common m (Counter ks)) ->
  In (of_key k) vs /\ n = occurrences k vs /\ 0 < n.
Proof.
  intros Hk Hin. apply most_common_in, Counter_entry in Hin.
  destruct Hin as (Hin & -> & Hpos). repeat split; auto.
  - eapply to_keys_in; eauto.
  - now apply to_keys_count.
Qed.

(** The trend, in terms of the truthy years of the records. *)
Lemma yearly_trends_spec p st :
  build_stats p = Ok st ->
  let years := record_years (records p) in
  StronglySorted (fun a b => key_below (fst a) (fst b))
    (ResearchStats.yearly_trends st) /\
  (forall k n, In (k, n) (ResearchStats.yearly_trends st) ->
     In (of_key k) years /\ n = occurrences k years) /\
  (forall y, In y years ->
     exists k, is_key k y = true /\
               In (k, occurrences k years) (ResearchStats.yearly_trends st)).
Proof.
  intros Hb years. apply build_stats_spec in Hb.
  destruct Hb as (yk & ik & ak & Hyk & _ & _ & Hs & _).
  split; [|split].
  - eapply py_sorted_sorted; [|exact Hs]. apply Counter_distinct.
  - intros k n Hin.
    eapply Permutation_in in Hin; [|symmetry; eapply py_sorted_perm; eauto].
    apply Counter_entry in Hin. destruct Hin as (Hin & -> & _). split.
    + eapply to_keys_in; eauto.
    + now apply to_keys_count.
  - intros y Hy.
    destruct (to_keys_occurs _ _ _ Hyk Hy) as (k0 & Hk0 & Hin0).
    assert (Ho : occurs k0 yk = true).
    { apply occurs_true. exists k0. split; auto. apply key_eqb_refl. }
    destruct (Counter_covers _ _ Ho) as (k & Hin & Heq).
    exists k. split.
    + unfold is_key. rewrite Hk0. now rewrite key_eqb_sym.
    + eapply Permutation_in; [eapply py_sorted_perm; eauto|].
      unfold years. rewrite <- (to_keys_count _ _ _ Hyk).
      rewrite <- (count_key_congr _ _ _ Heq). exact Hin.
Qed.

Lemma unzip_pairs_err l e : unzip_pairs l = Err e -> e = unpack_error /\ l = [].
Proof. destruct l; simpl; intros H; [injection H as <-; auto | discriminate]. Qed.

(** ** Computations over the world *)

Section PipelineFacts.

#[local] Set Default Proof Using "Type".

Variable W : Type.
Variable requests_get :
  string -> list (string * json) -> W -> answer http_response * W.
Variable chat_create : chat_request -> W -> answer string * W.
Variable plt : plt_call -> W -> answer unit * W.
Variable savefig_b64 : W -> answer string * W.
Variable py_repr : json -> string.
Variable validation_error : json -> string.

Local Abbreviation charts_of := (create_visualization_charts W plt savefig_b64).
Local Abbreviation analyze := (analyze_research_data W plt savefig_b64).
Local Abbreviation query := (query_openalex W requests_get).
Local Abbreviation insights_of := (generate_investment_insights W chat_create).
Local Abbreviation invoke :=
  (workflow_invoke W requests_get chat_create plt savefig_b64 py_repr
     validation_error).
Local Abbreviation run_bot :=
  (run W requests_get chat_create plt savefig_b64 py_repr validation_error).

Lemma bind_ok {A B} (m : M W A) (k : A -> M W B) w b w' :
  bind W m k w = (Ok b, w') ->
  exists a w1, m w = (Ok a, w1) /\ k a w1 = (Ok b, w').
Proof.
  unfold bind. destruct (m w) as [[a|e] w1]; intros H; [eauto | discriminate].
Qed.

Lemma bind_err {A B} (m : M W A) (k : A -> M W B) w e w' :
  bind W m k w = (Err e, w') ->
  m w = (Err e, w') \/ exists a w1, m w = (Ok a, w1) /\ k a w1 = (Err e, w').
Proof.
  unfold bind. destruct (m w) as [[a|e1] w1]; intros H; [right; eauto | left; injection H as -> ->; reflexivity].
Qed.

Lemma bind_step_ok {A B} (m : M W A) (k : A -> M W B) w a w1 :
  m w = (Ok a, w1) -> bind W m k w = k a w1.
Proof. unfold bind. now intros ->. Qed.

Lemma bind_step_err {A B} (m : M W A) (k : A -> M W B) w e w1 :
  m w = (Err e, w1) -> bind W m k w = (Err e, w1).
Proof. unfold bind. now intros ->. Qed.

Lemma lift_ok {A} (r : pyres A) w a w' :
  lift W r w = (Ok a, w') -> r = Ok a /\ w' = w.
Proof. unfold lift. intros H. injection H as -> ->. auto. Qed.

(** Splits a successful chain of [bind] into its steps. *)
Ltac inv_M H :=
  repeat (apply bind_ok in H;
          let a := fresh "a" in
          let w := fresh "w" in
          let S := fresh "S" in
          destruct H as (a & w & S & H)).

(** The charts are drawn only for statistics with an institution and an
    author, and the mapping has the three identifiers. *)
Lemma charts_ok stats w ch w' :
  charts_of stats w = (Ok ch, w') ->
  ResearchStats.top_institutions stats <> [] /\
  ResearchStats.top_authors stats <> [] /\
  map fst ch = ["trend"; "institutions"; "authors"].
Proof.
  unfold create_visualization_charts. intros H. inv_M H.
  unfold ret in H. injection H as <- _.
  repeat match goal with
         | S : lift _ _ _ = (Ok _, _) |- _ => apply lift_ok in S; destruct S as [S _]
         end.
  repeat split; auto; intros E;
    match goal with
    | S : unzip_pairs ?l = Ok _, E : ?l = [] |- _ => rewrite E in S; discriminate S
    end.
Qed.

Lemma analyze_ok p w st w' :
  analyze p w = (Ok st, w') ->
  exists st0 ch,
    build_stats p = Ok st0 /\
    charts_of st0 w = (Ok ch, w') /\
    st = ResearchStats.set_charts st0 ch.
Proof.
  unfold analyze_research_data. intros H. inv_M H.
  apply lift_ok in S. destruct S as [S ->].
  unfold ret in H. injection H as <- <-. eauto.
Qed.

(** ** Claims about the aggregation *)

(** C1. Whatever the payload, the statistics [analyze_research_data]
    returns have at most five top papers, at most five top institutions and
    at most five top authors. *)
Theorem C1_top_lists_at_most_five p w st w' :
  analyze p w = (Ok st, w') ->
  List.length (ResearchStats.top_papers st) <= 5 /\
  List.length (ResearchStats.top_institutions st) <= 5 /\
  List.length (ResearchStats.top_authors st) <= 5.
Proof.
  intros H. apply analyze_ok in H. destruct H as (st0 & ch & Hb & _ & ->).
  apply build_stats_spec in Hb.
  destruct Hb as (yk & ik & ak & _ & _ & _ & _ & Hi & Ha & Hp & _).
  simpl. rewrite Hi, Ha. repeat split; auto using most_common_length.
Qed.

(** C3. Of two institutions with the same number of occurrences, the one
    that occurs first in the record sequence ranks before the other in
    [top_institutions]: when the later one is listed at position [j], the
    earlier one is listed at a position before [j].  The same holds of
    [top_authors].  Ties are broken by first appearance, whatever the
    names are. *)
Theorem C3_ties_by_first_appearance p w st w' :
  analyze p w = (Ok st, w') ->
  (forall a b n j,
      let names := keys_of (institution_names (records p)) in
      nth_error (ResearchStats.top_institutions st) j = Some (b, n) ->
      count_key a names = n ->
      first_index a names < first_index b names ->
      exists i a', i < j
        /\ nth_error (ResearchStats.top_institutions st) i = Some (a', n)
        /\ key_eqb a a' = true) /\
  (forall a b n j,
      let names := keys_of (author_entries (records p)) in
      nth_error (ResearchStats.top_authors st) j = Some (b, n) ->
      count_key a names = n ->
      first_index a names < first_index b names ->
      exists i a', i < j
        /\ nth_error (ResearchStats.top_authors st) i = Some (a', n)
        /\ key_eqb a a' = true).
Proof.
  intros H. apply analyze_ok in H. destruct H as (st0 & ch & Hb & _ & ->).
  apply build_stats_spec in Hb.
  destruct Hb as (yk & ik & ak & _ & Hik & Hak & _ & Hi & Ha & _).
  apply to_keys_of in Hik, Hak. subst ik ak. simpl. rewrite Hi, Ha.
  split; intros a b n j; cbv zeta; apply most_common_tie_break.
Qed.

(** C4. The aggregation counts every institution name of every authorship
    of every record, one occurrence for each name an authorship lists: an
    entry of [top_institutions] carries the number of times its name occurs
    among all of them.  For one record whose authorship lists A and B and
    another whose authorship lists A, [top_institutions] is (A, 2) followed
    by (B, 1). *)
Theorem C4_every_institution_counted p w st w' :
  analyze p w = (Ok st, w') ->
  (forall k n, In (k, n) (ResearchStats.top_institutions st) ->
     n = occurrences k (institution_names (records p)) /\
     exists r a i, In r (records p) /\ In a (authorships r) /\
                   In i (elems (field "institutions" a)) /\
                   field "display_name" i = of_key k) /\
  (p = Scenario.payload_AB ->
   ResearchStats.top_institutions st = [(KStr "A", 2); (KStr "B", 1)]).
Proof.
  intros H. apply analyze_ok in H. destruct H as (st0 & ch & Hb & _ & ->).
  split.
  - apply build_stats_spec in Hb.
    destruct Hb as (yk & ik & ak & _ & Hik & _ & _ & Hi & _).
    simpl. rewrite Hi. intros k n Hin.
    destruct (top_entry _ _ _ _ _ Hik Hin) as (Hv & Hn & _).
    split; auto. now apply In_institution_names.
  - intros ->. vm_compute in Hb. injection Hb as <-. reflexivity.
Qed.

(** C9, as amended.  The aggregation collects an author entry whenever the
    authorship's author object is truthy, and the entry is the object's
    display name, or [None] when the object has none: every element of
    [top_authors] is the display-name field of the truthy author object of
    some authorship of some record, with the number of such authorships as
    its count.  Authorships without a truthy author object contribute no
    occurrence. *)
Theorem C9_authors_of_truthy_author_objects p w st w' :
  analyze p w = (Ok st, w') ->
  forall k n, In (k, n) (ResearchStats.top_authors st) ->
    n = occurrences k (author_entries (records p)) /\
    exists r a, In r (records p) /\ In a (authorships r) /\
                py_truthy (field "author" a) = true /\
                field "display_name" (field "author" a) = of_key k.
Proof.
  intros H. apply analyze_ok in H. destruct H as (st0 & ch & Hb & _ & ->).
  apply build_stats_spec in Hb.
  destruct Hb as (yk & ik & ak & _ & _ & Hak & _ & _ & Ha & _).
  simpl. rewrite Ha. intros k n Hin.
  destruct (top_entry _ _ _ _ _ Hak Hin) as (Hv & Hn & _).
  split; auto. now apply In_author_entries.
Qed.

(** C2, as amended.  For a payload whose truthy publication years are
    integers or strings, the keys of [yearly_trends] are exactly the
    distinct publication years of the records whose year is truthy, in
    strictly ascending order, each with the number of records that bear it;
    three records with years 2020, 2021, 2020 give 2020: 2, 2021: 1.  The
    first hypothesis keeps the statement to the years whose order and
    equality are modelled: a year with a fraction is none of them. *)
Theorem C2_trend_of_truthy_years p w st w' :
  forallb integer_or_text (record_years (records p)) = true ->
  analyze p w = (Ok st, w') ->
  let years := record_years (records p) in
  StronglySorted (fun a b => key_below (fst a) (fst b))
    (ResearchStats.yearly_trends st) /\
  (forall k n, In (k, n) (ResearchStats.yearly_trends st) ->
     In (of_key k) years /\ n = occurrences k years) /\
  (forall y, In y years ->
     exists k, is_key k y = true /\
               In (k, occurrences k years) (ResearchStats.yearly_trends st)) /\
  (p = Scenario.payload_years ->
   ResearchStats.yearly_trends st = [(KInt 2020, 2); (KInt 2021, 1)]).
Proof.
  intros _ H years. apply analyze_ok in H. destruct H as (st0 & ch & Hb & _ & ->).
  destruct (yearly_trends_spec _ _ Hb) as (H1 & H2 & H3).
  simpl. split; [exact H1|]. split; [exact H2|]. split; [exact H3|].
  intros ->. vm_compute in Hb. injection Hb as <-. reflexivity.
Qed.

(** C10. A record enters [yearly_trends] by the truthiness of its
    publication year, not by its presence: no key of the trend is falsy
    (0, the empty string, [False], [None]), and the count of a key is the
    number of records whose year is truthy and equal to it, so that a record
    whose year is present and falsy counts for nothing, as a record without
    a year. *)
Theorem C10_falsy_years_excluded p w st w' :
  analyze p w = (Ok st, w') ->
  forall k n, In (k, n) (ResearchStats.yearly_trends st) ->
    py_truthy (of_key k) = true /\
    n = List.length
          (filter (fun r => py_truthy (field "publication_year" r)
                            && is_key k (field "publication_year" r))
                  (records p)).
Proof.
  intros H k n Hin. apply analyze_ok in H.
  destruct H as (st0 & ch & Hb & _ & ->).
  destruct (yearly_trends_spec _ _ Hb) as (_ & Hc & _).
  destruct (Hc k n Hin) as (Hy & ->). split.
  - unfold record_years in Hy. apply filter_In in Hy. exact (proj2 Hy).
  - apply occurrences_records.
Qed.

(** ** The empty payload *)

(** C5. For no record and a reported count of 0 the statistics are built,
    with an empty trend and empty top lists, and [format_insights] renders
    every section header over an empty body; but [analyze_research_data]
    goes on to draw the charts, where the unpacking of the empty
    [top_institutions] raises: the aggregation never returns on this
    payload, whatever the backend does. *)
Theorem C5_empty_payload_raises w :
  build_stats Scenario.payload_empty = Ok Scenario.stats_empty /\
  format_insights py_repr Scenario.stats_empty = Ok Scenario.report_empty /\
  (exists e w', analyze Scenario.payload_empty w = (Err e, w')) /\
  fst (analyze_research_data unit Scenario.plt_ok Scenario.savefig_ok
         Scenario.payload_empty Scenario.start) = Err unpack_error.
Proof.
  split; [reflexivity|]. split; [reflexivity|]. split; [|reflexivity].
  destruct (analyze Scenario.payload_empty w) as [[st|e] w'] eqn:E; [|eauto].
  exfalso. apply analyze_ok in E. destruct E as (st0 & ch & Hb & Hc & _).
  vm_compute in Hb. injection Hb as <-.
  apply charts_ok in Hc. destruct Hc as (Hi & _). now apply Hi.
Qed.

(** ** Chart rendering propagates *)

Lemma propagates_ret {A} P (a : A) : propagates P (ret W a).
Proof. intros w. exists []. simpl. rewrite app_nil_r. auto. Qed.

Lemma propagates_lift {A} (P : exn -> Prop) (r : pyres A) :
  (forall e, r = Err e -> P e) -> propagates P (lift W r).
Proof.
  intros Hr w. exists []. simpl. rewrite app_nil_r. split; auto.
  destruct r; auto.
Qed.

Lemma propagates_answer {A} P (a : answer A) (ev : event) :
  raised_of ev = failure a ->
  match raised_as BackendError a with
  | Ok _ => Forall succeeded [ev]
  | Err e => aborted_by_call [ev] e \/ (P e /\ Forall succeeded [ev])
  end.
Proof.
  destruct a as [msg|v]; simpl; intros H.
  - left. exists [], ev, msg. repeat split; auto.
  - repeat constructor. exact H.
Qed.

Lemma propagates_call_plt P c : propagates P (call_plt W plt c).
Proof.
  intros w. unfold call_plt. destruct (plt c (ext w)) as [r x]. simpl.
  eexists. split; [reflexivity|]. now apply propagates_answer.
Qed.

Lemma propagates_call_savefig P : propagates P (call_savefig W savefig_b64).
Proof.
  intros w. unfold call_savefig. destruct (savefig_b64 (ext w)) as [r x]. simpl.
  eexists. split; [reflexivity|]. now apply propagates_answer.
Qed.

Lemma aborted_by_call_app evs1 evs2 e :
  Forall succeeded evs1 -> aborted_by_call evs2 e ->
  aborted_by_call (evs1 ++ evs2) e.
Proof.
  intros H1 (evs0 & ev & msg & -> & H0 & Hr & ->).
  exists (evs1 ++ evs0)%list, ev, msg. rewrite app_assoc.
  repeat split; auto. apply Forall_app; auto.
Qed.

Lemma propagates_bind {A B} P (m : M W A) (k : A -> M W B) :
  propagates P m -> (forall a, propagates P (k a)) ->
  propagates P (bind W m k).
Proof.
  intros Hm Hk w. destruct (Hm w) as (evs1 & Ht1 & Hr1). unfold bind.
  destruct (m w) as [[a|e] w1]; simpl in *.
  - destruct (Hk a w1) as (evs2 & Ht2 & Hr2).
    exists (evs1 ++ evs2)%list. rewrite Ht2, Ht1, app_assoc. split; auto.
    destruct (fst (k a w1)).
    + apply Forall_app; auto.
    + destruct Hr2 as [Hab|[Hp Hf]].
      * left. now apply aborted_by_call_app.
      * right. split; auto. apply Forall_app; auto.
  - exists evs1. auto.
Qed.

(** C8, as amended.  When a call of the backend fails while a chart is
    drawn, [create_visualization_charts] stops at that call and raises the
    backend's exception as it is, without naming the chart; it returns a
    mapping, with the three identifiers, only when every call succeeded.
    The one exception of its own is the [ValueError] of unpacking an empty
    [top_institutions] or [top_authors].  No failure is swallowed. *)
Theorem C8_chart_failures_propagate stats :
  propagates
    (fun e => e = unpack_error /\
              (ResearchStats.top_institutions stats = [] \/
               ResearchStats.top_authors stats = []))
    (charts_of stats) /\
  (forall w ch w', charts_of stats w = (Ok ch, w') -> map fst ch = chart_ids).
Proof.
  split.
  - unfold create_visualization_charts.
    repeat first
      [ apply propagates_bind; [|intros ?]
      | apply propagates_call_plt
      | apply propagates_call_savefig
      | apply propagates_ret
      | apply propagates_lift; intros e He;
        apply unzip_pairs_err in He; destruct He as [-> He]; auto ].
  - intros w ch w' H. apply charts_ok in H. tauto.
Qed.

(** ** The fetcher *)

(** C7, as amended.  [query_openalex] makes one request and no second one.
    When the endpoint answers, it raises the exception whose message carries
    the status code if and only if the status is not 200; on status 200 it
    returns the parsed body when the body is JSON, and raises the decoding
    error of [response.json()] when it is not. *)
Theorem C7_fetch_raises_on_non_200 concept w :
  match requests_get base_url (query_params concept) (ext w) with
  | (inr response, x) =>
      snd (query concept w) =
        mkWorld x (trace w ++ [EvGet base_url (query_params concept) None]) /\
      ((exists code, fst (query concept w) = Err (status_error code))
       <-> status_code response <> 200%Z) /\
      (status_code response <> 200%Z ->
       fst (query concept w) =
         Err (Exception ("OpenAlex API request failed with status "
                           ++ str_Z (status_code response)))) /\
      (status_code response = 200%Z ->
       match body response with
       | inr payload => fst (query concept w) = Ok payload
       | inl msg => fst (query concept w) = Err (JSONDecodeError msg)
       end)
  | (inl msg, x) =>
      query concept w =
        (Err (RequestException msg),
         mkWorld x (trace w ++ [EvGet base_url (query_params concept) (Some msg)]))
  end.
Proof.
  unfold query_openalex, bind, call_get.
  destruct (requests_get base_url (query_params concept) (ext w)) as [[msg|r] x];
    simpl; [reflexivity|].
  destruct (Z.eqb_spec (status_code r) 200) as [E|E]; simpl.
  - split; [reflexivity|]. split; [split|split].
    + intros (code & H). unfold response_json in H.
      destruct (body r); discriminate H.
    + intros H. contradiction.
    + intros H. contradiction.
    + intros _. unfold response_json. destruct (body r); reflexivity.
  - split; [reflexivity|]. split; [split|split].
    + intros _. exact E.
    + intros _. now exists (status_code r).
    + intros _. reflexivity.
    + intros H. contradiction.
Qed.

(** ** The run *)

Local Abbreviation first_raise :=
  (stage_raises W requests_get chat_create plt savefig_b64 py_repr
     validation_error).

Lemma stage_raises_invoke concept w e w' :
  first_raise concept w e w' <-> invoke concept w = (Err e, w').
Proof.
  unfold stage_raises, workflow_invoke. split.
  - intros [H|(s1 & w1 & H1 & [H|(s2 & w2 & H2 & [H|(s3 & w3 & H3 & H)])])].
    + now apply bind_step_err.
    + rewrite (bind_step_ok _ _ _ _ _ H1). now apply bind_step_err.
    + rewrite (bind_step_ok _ _ _ _ _ H1), (bind_step_ok _ _ _ _ _ H2).
      now apply bind_step_err.
    + now rewrite (bind_step_ok _ _ _ _ _ H1), (bind_step_ok _ _ _ _ _ H2),
        (bind_step_ok _ _ _ _ _ H3).
  - intros H. apply bind_err in H. destruct H as [H|(s1 & w1 & H1 & H)]; auto.
    right. exists s1, w1. split; auto.
    apply bind_err in H. destruct H as [H|(s2 & w2 & H2 & H)]; auto.
    right. exists s2, w2. split; auto.
    apply bind_err in H. destruct H as [H|(s3 & w3 & H3 & H)]; auto.
    right. exists s3, w3. auto.
Qed.

Lemma state_input_ok s s' :
  state_input validation_error s = Ok s' -> s' = s.
Proof.
  unfold state_input.
  destruct (State.api_response s) as [[]|]; intros H;
    try discriminate H; now injection H as <-.
Qed.

Lemma enter_ok (node : State.t -> M W State.t) s w s' w' :
  enter W validation_error node s w = (Ok s', w') ->
  state_input validation_error s = Ok s /\ node s w = (Ok s', w').
Proof.
  unfold enter. intros H. apply bind_ok in H. destruct H as (s0 & w0 & Hv & H).
  apply lift_ok in Hv. destruct Hv as [Hv ->].
  pose proof (state_input_ok _ _ Hv) as ->. auto.
Qed.

Lemma enter_valid (node : State.t -> M W State.t) s w :
  state_input validation_error s = Ok s ->
  enter W validation_error node s w = node s w.
Proof. unfold enter, bind, lift. now intros ->. Qed.

Ltac inv_run :=
  repeat match goal with
    | H : bind _ _ _ _ = (Ok _, _) |- _ =>
        apply bind_ok in H; destruct H as (? & ? & ? & H)
    | H : ret _ _ _ = (Ok _, _) |- _ =>
        unfold ret in H; injection H as ? ?; subst
    end.

Lemma invoke_ok concept w st w' :
  invoke concept w = (Ok st, w') ->
  exists stats r i ch,
    State.stats st = Some stats /\ State.result st = Some r /\
    State.investment_insights st = Some i /\ State.charts st = Some ch /\
    ResearchStats.charts stats = Some ch.
Proof.
  unfold workflow_invoke. intros H.
  apply bind_ok in H. destruct H as (s1 & w1 & H1 & H).
  apply bind_ok in H. destruct H as (s2 & w2 & H2 & H).
  apply bind_ok in H. destruct H as (s3 & w3 & H3 & H).
  apply enter_ok in H1, H2, H3, H.
  destruct H1 as [_ H1], H2 as [_ H2], H3 as [_ H3], H as [_ H].
  unfold query_node, analyze_node, format_node, insights_node in *.
  inv_run. simpl in *.
  match goal with
  | S : analyze_research_data _ _ _ _ _ = (Ok ?s, _) |- _ =>
      apply analyze_ok in S; destruct S as (st0 & ch & _ & _ & ->)
  end.
  simpl. eauto 10.
Qed.

(** C6. A run is all or nothing.  If a stage raises, [run] returns the
    error line made of that exception's message, an empty narrative and no
    charts, and the bot keeps the state it had; in particular, when the
    endpoint answers with a status other than 200 the run ends there, after
    the one request, with no call of the backend nor of the completion
    service; and when it answers 200 with a body that parses to something
    other than an object or [None], the run ends at the validation of the
    state the second stage is given, with the validation's message and
    before any aggregation.  If no stage raises, the statistics, the report,
    the narrative and the charts are all there.  One of the two always
    happens. *)
Theorem C6_run_all_or_nothing self concept w :
  (forall e w', first_raise concept w e w' ->
     run_bot self concept w =
       (("Error: " ++ str_exn e, EmptyString, None), self, w')) /\
  (forall response x,
     requests_get base_url (query_params concept) (ext w) = (inr response, x) ->
     status_code response <> 200%Z ->
     run_bot self concept w =
       (("Error: OpenAlex API request failed with status "
           ++ str_Z (status_code response), EmptyString, None),
        self,
        mkWorld x (trace w ++ [EvGet base_url (query_params concept) None]))) /\
  (forall response x v,
     requests_get base_url (query_params concept) (ext w) = (inr response, x) ->
     status_code response = 200%Z ->
     body response = inr v ->
     not_a_mapping v = true ->
     run_bot self concept w =
       (("Error: " ++ validation_error v, EmptyString, None),
        self,
        mkWorld x (trace w ++ [EvGet base_url (query_params concept) None]))) /\
  (forall st w', invoke concept w = (Ok st, w') ->
     exists stats r i ch,
       State.stats st = Some stats /\ State.result st = Some r /\
       State.investment_insights st = Some i /\ State.charts st = Some ch /\
       run_bot self concept w =
         ((r, i, Some ch), {| current_state := Some st |}, w')) /\
  ((exists e w', first_raise concept w e w') \/
   (exists st w', invoke concept w = (Ok st, w'))).
Proof.
  assert (Hfail : forall e w', first_raise concept w e w' ->
            run_bot self concept w =
              (("Error: " ++ str_exn e, EmptyString, None), self, w')).
  { intros e w' H. apply stage_raises_invoke in H. unfold run. now rewrite H. }
  split; [exact Hfail|]. split; [|split; [|split]].
  - intros response x Hget Hcode.
    apply (Hfail (status_error (status_code response))).
    left. rewrite enter_valid by reflexivity.
    unfold query_node, query_openalex.
    apply bind_step_err. simpl.
    assert (Hc : call_get W requests_get base_url (query_params concept) w =
                 (Ok response,
                  mkWorld x (trace w ++ [EvGet base_url (query_params concept) None]))).
    { unfold call_get. now rewrite Hget. }
    rewrite (bind_step_ok _ _ _ _ _ Hc).
    destruct (Z.eqb_spec (status_code response) 200); [contradiction|reflexivity].
  - intros response x v Hget Hcode Hbody Hv.
    apply (Hfail (ValidationError (validation_error v))).
    right.
    exists (State.mk concept (Some v) None None None None),
           (mkWorld x (trace w ++ [EvGet base_url (query_params concept) None])).
    split.
    + rewrite enter_valid by reflexivity.
      assert (Hc : call_get W requests_get base_url (query_params concept) w =
                   (Ok response,
                    mkWorld x (trace w ++ [EvGet base_url (query_params concept) None]))).
      { unfold call_get. now rewrite Hget. }
      unfold query_node, query_openalex. cbn [State.concept].
      unfold bind at 1. unfold bind at 1. rewrite Hc.
      rewrite Hcode. unfold response_json. rewrite Hbody. reflexivity.
    + left. unfold enter, bind, lift, state_input. simpl.
      destruct v; try discriminate Hv; reflexivity.
  - intros st w' H. destruct (invoke_ok _ _ _ _ H) as (stats & r & i & ch & Hs & Hr & Hi & Hc & _).
    exists stats, r, i, ch. repeat split; auto.
    unfold run. now rewrite H, Hr, Hi, Hc.
  - destruct (invoke concept w) as [[st|e] w'] eqn:E.
    + right; eauto.
    + left. exists e, w'. now apply stage_raises_invoke.
Qed.

End PipelineFacts.

(** * The claims on the scenarios *)

Lemma C1_top_lists_at_most_five_witness :
  exists st w',
    Scenario.analyze Scenario.payload_AB Scenario.start = (Ok st, w') /\
    List.length (ResearchStats.top_papers st) <= 5 /\
    List.length (ResearchStats.top_institutions st) <= 5 /\
    List.length (ResearchStats.top_authors st) <= 5.
Proof.
  eexists. eexists. split.
  - vm_compute. reflexivity.
  - eapply (C1_top_lists_at_most_five unit Scenario.plt_ok Scenario.savefig_ok
             Scenario.payload_AB Scenario.start).
    vm_compute. reflexivity.
Defined.

Lemma C2_trend_of_truthy_years_witness :
  exists st w',
    Scenario.analyze Scenario.payload_years Scenario.start = (Ok st, w') /\
    ResearchStats.yearly_trends st = [(KInt 2020, 2); (KInt 2021, 1)].
Proof.
  eexists. eexists. split.
  - vm_compute. reflexivity.
  - eapply (C2_trend_of_truthy_years unit Scenario.plt_ok Scenario.savefig_ok
             Scenario.payload_years Scenario.start).
    + vm_compute. reflexivity.
    + vm_compute. reflexivity.
    + reflexivity.
Defined.

(** A record whose year is 0 has a defined year, and 0 is no key of the
    trend. *)
Lemma C2_counterexample :
  exists st w',
    Scenario.analyze Scenario.payload_year0 Scenario.start = (Ok st, w') /\
    ~ trend_keys_are_defined_years Scenario.payload_year0 st.
Proof.
  eexists. eexists. split.
  - vm_compute. reflexivity.
  - intros H. destruct (proj1 (H (JInt 0))) as (k & n & Hin & Hk).
    + vm_compute. left. reflexivity.
    + simpl in Hin. destruct Hin as [E|[]]. injection E as <- <-.
      vm_compute in Hk. discriminate Hk.
Qed.

Lemma C3_ties_by_first_appearance_witness :
  exists st w',
    Scenario.analyze Scenario.payload_ties Scenario.start = (Ok st, w') /\
    ResearchStats.top_institutions st = [(KStr "Zeta", 2); (KStr "Alpha", 2)] /\
    exists i a', i < 1
      /\ nth_error (ResearchStats.top_institutions st) i = Some (a', 2)
      /\ key_eqb (KStr "Zeta") a' = true.
Proof.
  eexists. eexists. split; [|split].
  - vm_compute. reflexivity.
  - reflexivity.
  - eapply (fun H => proj1 (C3_ties_by_first_appearance unit Scenario.plt_ok
                    Scenario.savefig_ok Scenario.payload_ties Scenario.start
                    _ _ H) (KStr "Zeta") (KStr "Alpha") 2 1).
    + vm_compute. reflexivity.
    + reflexivity.
    + vm_compute. reflexivity.
    + vm_compute. lia.
Defined.

Lemma C4_every_institution_counted_witness :
  exists st w',
    Scenario.analyze Scenario.payload_AB Scenario.start = (Ok st, w') /\
    ResearchStats.top_institutions st = [(KStr "A", 2); (KStr "B", 1)].
Proof.
  eexists. eexists. split.
  - vm_compute. reflexivity.
  - eapply (C4_every_institution_counted unit Scenario.plt_ok Scenario.savefig_ok
             Scenario.payload_AB Scenario.start).
    + vm_compute. reflexivity.
    + reflexivity.
Defined.

Lemma C6_run_all_or_nothing_witness :
  run unit Scenario.get_503 Scenario.chat_ok Scenario.plt_ok Scenario.savefig_ok
    Scenario.repr_plain Scenario.invalid_plain Scenario.bot "graphene" Scenario.start =
  (("Error: OpenAlex API request failed with status 503", EmptyString, None),
   Scenario.bot,
   mkWorld tt [EvGet base_url (query_params "graphene") None]).
Proof.
  apply (proj1 (proj2 (C6_run_all_or_nothing unit Scenario.get_503
                         Scenario.chat_ok Scenario.plt_ok Scenario.savefig_ok
                         Scenario.repr_plain Scenario.invalid_plain Scenario.bot "graphene"
                         Scenario.start))
           {| status_code := 503;
              body := inl "Expecting value: line 1 column 1 (char 0)" |} tt).
  - reflexivity.
  - simpl. lia.
Defined.

Lemma C7_fetch_raises_on_non_200_witness :
  fst (query_openalex unit Scenario.get_503 "graphene" Scenario.start) =
  Err (Exception "OpenAlex API request failed with status 503").
Proof.
  apply (proj1 (proj2 (proj2
           (C7_fetch_raises_on_non_200 unit Scenario.get_503 "graphene"
              Scenario.start)))).
  simpl. lia.
Defined.

(** The endpoint answers 200 with a body that is no JSON: nothing is
    returned, the decoding error is raised. *)
Lemma C7_counterexample :
  Scenario.get_html base_url (query_params "graphene") tt =
    (inr Scenario.response_html, tt) /\
  fst (query_openalex unit Scenario.get_html "graphene" Scenario.start) =
    Err (JSONDecodeError "Expecting value: line 1 column 1 (char 0)") /\
  ~ returns_parsed_body Scenario.response_html
      (fst (query_openalex unit Scenario.get_html "graphene" Scenario.start)).
Proof.
  split; [reflexivity|]. split; [reflexivity|].
  intros H. destruct (H eq_refl) as (payload & Hp). discriminate Hp.
Qed.

Lemma C8_chart_failures_propagate_witness :
  exists ch w',
    Scenario.draw Scenario.stats_sample Scenario.start = (Ok ch, w') /\
    map fst ch = chart_ids.
Proof.
  eexists. eexists. split.
  - vm_compute. reflexivity.
  - eapply (proj2 (C8_chart_failures_propagate unit Scenario.plt_ok
                     Scenario.savefig_ok Scenario.stats_sample) Scenario.start).
    vm_compute. reflexivity.
Defined.

(** The unpacking of an empty [top_institutions] raises a [ValueError]
    whose message names none of the charts. *)
Lemma C8_counterexample :
  ~ render_error_names_chart
      (fst (Scenario.draw Scenario.stats_without_institutions Scenario.start)).
Proof.
  intros H.
  assert (E : fst (Scenario.draw Scenario.stats_without_institutions
                     Scenario.start) = Err unpack_error)
    by (vm_compute; reflexivity).
  specialize (H _ E). vm_compute in H. discriminate H.
Qed.

Lemma C9_authors_of_truthy_author_objects_witness :
  exists st w',
    Scenario.analyze Scenario.payload_nameless Scenario.start = (Ok st, w') /\
    ResearchStats.top_authors st = [(KNone, 1)] /\
    1 = occurrences KNone (author_entries (records Scenario.payload_nameless)) /\
    exists r a, In r (records Scenario.payload_nameless) /\
                In a (authorships r) /\
                py_truthy (field "author" a) = true /\
                field "display_name" (field "author" a) = JNull.
Proof.
  eexists. eexists. split; [|split].
  - vm_compute. reflexivity.
  - reflexivity.
  - eapply (fun H => C9_authors_of_truthy_author_objects unit Scenario.plt_ok
             Scenario.savefig_ok Scenario.payload_nameless Scenario.start
             _ _ H KNone 1).
    + vm_compute. reflexivity.
    + left. reflexivity.
Defined.

(** An author object without a display name puts [None] among the top
    authors, and no authorship carries a display name at all. *)
Lemma C9_counterexample :
  exists st w',
    Scenario.analyze Scenario.payload_nameless Scenario.start = (Ok st, w') /\
    ~ top_authors_are_display_names Scenario.payload_nameless st.
Proof.
  eexists. eexists. split.
  - vm_compute. reflexivity.
  - intros H. destruct (H KNone 1) as (r & a & name & Hr & Ha & Hp & _).
    + left. reflexivity.
    + destruct Hr as [<-|[]]. destruct Ha as [<-|[]]. discriminate Hp.
Qed.

Lemma C10_falsy_years_excluded_witness :
  exists st w',
    Scenario.analyze Scenario.payload_year0 Scenario.start = (Ok st, w') /\
    ResearchStats.yearly_trends st = [(KInt 2020, 1)] /\
    py_truthy (of_key (KInt 2020)) = true /\
    1 = List.length
          (filter (fun r => py_truthy (field "publication_year" r)
                            && is_key (KInt 2020) (field "publication_year" r))
                  (records Scenario.payload_year0)).
Proof.
  eexists. eexists. split; [|split].
  - vm_compute. reflexivity.
  - reflexivity.
  - eapply (fun H => C10_falsy_years_excluded unit Scenario.plt_ok
             Scenario.savefig_ok Scenario.payload_year0 Scenario.start
             _ _ H (KInt 2020) 1).
    + vm_compute. reflexivity.
    + left. reflexivity.
Defined.

(** * Further properties of the aggregation *)

Lemma dict_get_field_or d k def v :
  dict_get d k def = Ok v -> v = field_or k def d.
Proof. intros H. apply dict_get_ok in H. destruct H as (kvs & -> & ->). reflexivity. Qed.

Lemma paper_summary_of_spec r s : paper_summary_of r = Ok s -> s = summary_of r.
Proof.
  unfold paper_summary_of, summary_of. intros H. inv_ok. subst s.
  apply dict_get_field_or in E, E0, E1, E2. now subst.
Qed.

Lemma slice_iter_firstn p n results head items :
  dict_get p "results" (JArr []) = Ok results ->
  py_slice_to n results = Ok head ->
  py_iter head = Ok items ->
  (forall x, In x items -> exists kvs, x = JObj kvs) ->
  items = firstn n (records p).
Proof.
  intros Hg Hs Hi Hd. rewrite (py_iter_elems _ _ Hi Hd).
  apply dict_get_ok in Hg. destruct Hg as (kvs & -> & ->).
  unfold records. simpl.
  destruct (assoc "results" kvs) as [v|].
  - destruct v; simpl in Hs; try discriminate; injection Hs as <-; simpl; auto.
    now rewrite firstn_nil.
  - simpl in Hs. injection Hs as <-. simpl. now rewrite !firstn_nil.
Qed.

(** The count and the top papers, in terms of the payload. *)
Lemma build_stats_head p st :
  build_stats p = Ok st ->
  ResearchStats.total_papers st =
    field_or "count" (JInt 0) (field_or "meta" (JObj []) p) /\
  ResearchStats.top_papers st = map summary_of (firstn 5 (records p)).
Proof.
  unfold build_stats. intros H. inv_ok. subst st. simpl. split.
  - apply dict_get_field_or in E0, E1. now subst.
  - assert (Hi : v3 = firstn 5 (records p)).
    { eapply slice_iter_firstn; eauto.
      intros x Hx. destruct (mapM_ok_each _ _ _ E4 x Hx) as (y & Hy).
      revert Hy. generalize x y. needs_dict. }
    subst v3. eapply mapM_ok_map; [|exact E4].
    intros x y _ Hx. now apply paper_summary_of_spec.
Qed.

Lemma counter_total_incr x c :
  counter_total (counter_incr x c) = S (counter_total c).
Proof.
  unfold counter_total. induction c as [|[k n] c IH]; simpl; auto.
  destruct (key_eqb k x); simpl; auto. rewrite IH. lia.
Qed.

Lemma counter_total_fold xs : forall c,
  counter_total (fold_left (fun c k => counter_incr k c) xs c) =
  counter_total c + List.length xs.
Proof.
  induction xs as [|x xs IH]; intros c; simpl; [lia|].
  rewrite IH, counter_total_incr. lia.
Qed.

(** A [Counter] has counted every element once. *)
Lemma counter_total_Counter xs : counter_total (Counter xs) = List.length xs.
Proof. unfold Counter. now rewrite counter_total_fold. Qed.

Lemma counter_total_perm c c' :
  Permutation c c' -> counter_total c = counter_total c'.
Proof.
  unfold counter_total. induction 1; simpl; try lia.
Qed.

Lemma StronglySorted_pair {A} (R : A -> A -> Prop) (l : list A) :
  StronglySorted R l ->
  forall a b, In a l -> In b l -> a = b \/ R a b \/ R b a.
Proof.
  induction 1 as [|x l Hl IH Hx]; simpl; [tauto|].
  rewrite Forall_forall in Hx.
  intros a b [<-|Ha] [<-|Hb]; auto.
Qed.

(** The items of [most_common] stand in non-increasing count and no key
    comes twice. *)
Lemma most_common_desc_distinct m xs :
  StronglySorted
    (fun a b => snd b <= snd a /\ key_eqb (fst a) (fst b) = false)
    (most_common m (Counter xs)).
Proof.
  eapply StronglySorted_weaken; [|apply most_common_sorted].
  intros [ka na] [kb nb] Ha Hb [Hlt|[Heq Hfi]]; simpl in *.
  - split; [lia|].
    apply most_common_in, Counter_entry in Ha, Hb.
    destruct Ha as (_ & -> & _), Hb as (_ & -> & _).
    destruct (key_eqb ka kb) eqn:E; auto.
    rewrite (count_key_congr _ _ _ E) in Hlt. lia.
  - split; [lia|]. eapply first_index_lt_neq; eauto.
Qed.

(** What [most_common] leaves out occurs no more often than what it
    keeps, and it leaves something out only when it keeps [m] items. *)
Lemma most_common_maximal m xs e :
  In e (Counter xs) ->
  In e (most_common m (Counter xs)) \/
  (List.length (most_common m (Counter xs)) = m /\
   forall t, In t (most_common m (Counter xs)) -> snd e <= snd t).
Proof.
  intros He.
  assert (Hin : In e (sort_desc (Counter xs)))
    by (eapply Permutation_in; [apply sort_desc_perm | exact He]).
  pose proof (sort_desc_Counter xs) as Hs.
  rewrite <- (firstn_skipn m (sort_desc (Counter xs))) in Hin, Hs.
  apply in_app_or in Hin. destruct Hin as [Hin|Hin]; [left; exact Hin|].
  right. split.
  - unfold most_common. rewrite length_firstn. apply Nat.min_l.
    destruct (Nat.le_gt_cases m (List.length (sort_desc (Counter xs)))); auto.
    rewrite skipn_all2 in Hin by lia. destruct Hin.
  - intros t Ht.
    pose proof (StronglySorted_app_pair _ _ _ Hs t e Ht Hin) as [H|[H _]]; lia.
Qed.

Section AggregationFacts.

#[local] Set Default Proof Using "Type".

Variable W : Type.
Variable plt : plt_call -> W -> answer unit * W.
Variable savefig_b64 : W -> answer string * W.

Local Abbreviation analyze := (analyze_research_data W plt savefig_b64).

(** X1. The aggregation returns only for a payload with at least one
    institution name and at least one author entry: without either, the
    unpacking in the chart step raises and [analyze_research_data] raises
    with it, whatever the records hold otherwise. *)
Theorem analyze_needs_institution_and_author p w :
  institution_names (records p) = [] \/ author_entries (records p) = [] ->
  exists e w', analyze p w = (Err e, w').
Proof.
  intros Hnone.
  destruct (analyze p w) as [[st|e] w'] eqn:E; [exfalso | eauto].
  apply analyze_ok in E. destruct E as (st0 & ch & Hb & Hc & _).
  apply charts_ok in Hc. destruct Hc as (Hi & Ha & _).
  apply build_stats_spec in Hb.
  destruct Hb as (yk & ik & ak & _ & Hik & Hak & _ & Ei & Ea & _).
  destruct Hnone as [Hn|Hn]; rewrite Hn in *; simpl in *.
  - injection Hik as <-. apply Hi. now rewrite Ei.
  - injection Hak as <-. apply Ha. now rewrite Ea.
Qed.

(** X2. [top_papers] holds the first five records of the payload, in the
    order of the payload and without any sorting by the aggregator, each
    reduced to its title, citation count, year and DOI, with the empty
    string, 0, the empty string and the empty string for a missing key. *)
Theorem top_papers_are_first_five p w st w' :
  analyze p w = (Ok st, w') ->
  ResearchStats.top_papers st = map summary_of (firstn 5 (records p)).
Proof.
  intros H. apply analyze_ok in H. destruct H as (st0 & ch & Hb & _ & ->).
  simpl. now apply build_stats_head.
Qed.

(** [total_papers] is the count the payload reports under [meta]
    (0 when [meta] or [count] is missing); it is not derived from the
    records, and may differ from their number. *)
Lemma total_papers_is_reported_count p w st w' :
  analyze p w = (Ok st, w') ->
  ResearchStats.total_papers st =
    field_or "count" (JInt 0) (field_or "meta" (JObj []) p).
Proof.
  intros H. apply analyze_ok in H. destruct H as (st0 & ch & Hb & _ & ->).
  simpl. now apply build_stats_head.
Qed.

(** X3. [top_institutions] and [top_authors] are in non-increasing order of
    count, list no name twice, and every count is at least 1. *)
Theorem top_lists_descending_distinct p w st w' :
  analyze p w = (Ok st, w') ->
  let ordered :=
    StronglySorted
      (fun a b => snd b <= snd a /\ key_eqb (fst a) (fst b) = false) in
  ordered (ResearchStats.top_institutions st) /\
  ordered (ResearchStats.top_authors st) /\
  Forall (fun e => 1 <= snd e) (ResearchStats.top_institutions st) /\
  Forall (fun e => 1 <= snd e) (ResearchStats.top_authors st).
Proof.
  intros H. apply analyze_ok in H. destruct H as (st0 & ch & Hb & _ & ->).
  apply build_stats_spec in Hb.
  destruct Hb as (yk & ik & ak & _ & _ & _ & _ & Ei & Ea & _).
  simpl. rewrite Ei, Ea.
  repeat split; try apply most_common_desc_distinct;
    apply Forall_forall; intros [k n] Hin;
    apply most_common_in, Counter_entry in Hin; simpl; lia.
Qed.

(** X4. The top lists hold the most frequent names: an institution name of
    the payload that is not listed occurs no more often than any listed
    one, and a name is left out only when five are listed.  The same holds
    of the author entries. *)
Theorem top_lists_hold_the_most_frequent p w st w' :
  analyze p w = (Ok st, w') ->
  (forall v, In v (institution_names (records p)) ->
     let n := occurrences (key_of v) (institution_names (records p)) in
     (exists k, is_key k v = true /\
                In (k, n) (ResearchStats.top_institutions st)) \/
     (List.length (ResearchStats.top_institutions st) = 5 /\
      forall t, In t (ResearchStats.top_institutions st) -> n <= snd t)) /\
  (forall v, In v (author_entries (records p)) ->
     let n := occurrences (key_of v) (author_entries (records p)) in
     (exists k, is_key k v = true /\
                In (k, n) (ResearchStats.top_authors st)) \/
     (List.length (ResearchStats.top_authors st) = 5 /\
      forall t, In t (ResearchStats.top_authors st) -> n <= snd t)).
Proof.
  intros H. apply analyze_ok in H. destruct H as (st0 & ch & Hb & _ & ->).
  apply build_stats_spec in Hb.
  destruct Hb as (yk & ik & ak & _ & Hik & Hak & _ & Ei & Ea & _).
  simpl. rewrite Ei, Ea.
  assert (Hgen : forall vs ks, mapM to_key vs = Ok ks ->
            forall v, In v vs ->
              (exists k, is_key k v = true /\
                 In (k, occurrences (key_of v) vs) (most_common 5 (Counter ks))) \/
              (List.length (most_common 5 (Counter ks)) = 5 /\
               forall t, In t (most_common 5 (Counter ks)) ->
                         occurrences (key_of v) vs <= snd t)).
  { intros vs ks Hks v Hv.
    destruct (to_keys_occurs _ _ _ Hks Hv) as (k0 & Hk0 & Hin0).
    assert (Ho : occurs k0 ks = true).
    { apply occurs_true. exists k0. split; auto. apply key_eqb_refl. }
    destruct (Counter_covers _ _ Ho) as (k & Hin & Heq).
    assert (Hkv : key_of v = k0) by (unfold key_of; now rewrite Hk0).
    rewrite Hkv, <- (to_keys_count _ _ _ Hks).
    destruct (most_common_maximal 5 ks _ Hin) as [Ht|[Hl Hm]].
    - left. exists k. split; auto.
      unfold is_key. rewrite Hk0. now rewrite key_eqb_sym.
    - right. split; auto. }
  split; intros v Hv; cbv zeta; eauto.
Qed.

(** X5. The counts of [yearly_trends] add up to the number of records
    whose publication year is truthy: every such record is counted once, and
    nothing else is. *)
Theorem trend_counts_add_up p w st w' :
  analyze p w = (Ok st, w') ->
  counter_total (ResearchStats.yearly_trends st) =
  List.length (filter (fun r => py_truthy (field "publication_year" r))
                 (records p)).
Proof.
  intros H. apply analyze_ok in H. destruct H as (st0 & ch & Hb & _ & ->).
  apply build_stats_spec in Hb.
  destruct Hb as (yk & ik & ak & Hyk & _ & _ & Hs & _).
  simpl. rewrite <- (counter_total_perm _ _ (py_sorted_perm _ _ Hs)).
  rewrite counter_total_Counter, (mapM_ok_length _ _ _ Hyk).
  unfold record_years. clear. induction (records p) as [|r rs IH]; simpl; auto.
  destruct (py_truthy (field "publication_year" r)); simpl; auto.
Qed.

(** X6. Years of two kinds cannot be put in order: when one record gives
    its year as a number and another as text, the sorting of the trend
    raises and the aggregation raises with it. *)
Theorem mixed_year_kinds_raise p w z s :
  In (JInt z) (record_years (records p)) ->
  In (JStr s) (record_years (records p)) ->
  exists e w', analyze p w = (Err e, w').
Proof.
  intros Hz Hs.
  destruct (analyze p w) as [[st|e] w'] eqn:E; [exfalso | eauto].
  apply analyze_ok in E. destruct E as (st0 & ch & Hb & _ & _).
  destruct (yearly_trends_spec _ _ Hb) as (Hsorted & _ & Hcov).
  destruct (Hcov _ Hz) as (k1 & Hk1 & Hin1).
  destruct (Hcov _ Hs) as (k2 & Hk2 & Hin2).
  unfold is_key in Hk1, Hk2. simpl in Hk1, Hk2.
  apply key_eqb_norm in Hk1, Hk2. simpl in Hk1, Hk2.
  destruct (StronglySorted_pair _ _ Hsorted _ _ Hin1 Hin2) as [Heq|[Hlt|Hlt]].
  - injection Heq as -> _. congruence.
  - unfold key_below, key_lt in Hlt. simpl in Hlt. rewrite Hk1, Hk2 in Hlt.
    discriminate Hlt.
  - unfold key_below, key_lt in Hlt. simpl in Hlt. rewrite Hk1, Hk2 in Hlt.
    discriminate Hlt.
Qed.

End AggregationFacts.

(** * Further properties of the report and of the insight generator *)

Lemma mapM_ok_iff {A B} (f : A -> pyres B) (l : list A) :
  (exists l', mapM f l = Ok l') <-> Forall (fun x => exists y, f x = Ok y) l.
Proof.
  induction l as [|x l IH]; simpl.
  - split; [constructor | eauto].
  - split.
    + intros (l' & H). inv_ok. constructor; eauto. apply IH; eauto.
    + intros H. inversion H as [|? ? (y & Hy) Hl]; subst.
      apply IH in Hl. destruct Hl as (l' & Hl'). rewrite Hy, Hl'. simpl. eauto.
Qed.

Lemma mapM_err {A B} (f : A -> pyres B) (l : list A) e :
  mapM f l = Err e -> exists x, In x l /\ f x = Err e.
Proof.
  induction l as [|x l IH]; simpl; [discriminate|].
  destruct (f x) as [y|e1] eqn:Ex; simpl.
  - destruct (mapM f l) as [ys|e2]; simpl; [discriminate|].
    intros H. injection H as ->. destruct (IH eq_refl) as (z & Hz & Hf). eauto.
  - intros H. injection H as ->. eauto.
Qed.

Lemma format_comma_ok v :
  (exists text, format_comma v = Ok text) <-> numeric v = true.
Proof.
  destruct v; simpl; split; intros H; eauto; try discriminate;
    destruct H; discriminate.
Qed.

(** A report is produced when the counts are numbers. *)
Lemma format_insights_ok_of_numbers py_repr stats :
  numeric (ResearchStats.total_papers stats) = true ->
  Forall (fun paper => numeric (citations paper) = true)
    (ResearchStats.top_papers stats) ->
  exists report, format_insights py_repr stats = Ok report.
Proof.
  unfold format_insights. intros Ht Hp.
  apply format_comma_ok in Ht. destruct Ht as (total & ->). simpl.
  assert (Hm : exists l', mapM (format_paper py_repr)
                            (ResearchStats.top_papers stats) = Ok l').
  { apply mapM_ok_iff. eapply Forall_impl; [|exact Hp]. intros paper Hn.
    apply format_comma_ok in Hn. destruct Hn as (c & Hc).
    unfold format_paper. rewrite Hc. simpl. eauto. }
  destruct Hm as (l' & ->). simpl. eauto.
Qed.

(** X7. [format_insights] returns a report exactly when neither the paper
    count nor the citation count of any top paper is a string, [None], a
    list or a dict: the thousands separator is the one thing of the report
    that can fail.  When it raises, the exception is the one the separator
    raises for the offending value: the [ValueError] of the string
    presentation for a string, the [TypeError] that names the value's type
    otherwise. *)
Theorem format_insights_needs_numbers py_repr stats :
  ((exists report, format_insights py_repr stats = Ok report) <->
   unformattable (ResearchStats.total_papers stats) = false /\
   Forall (fun paper => unformattable (citations paper) = false)
     (ResearchStats.top_papers stats)) /\
  (forall e, format_insights py_repr stats = Err e ->
     exists v, (v = ResearchStats.total_papers stats \/
                In v (map citations (ResearchStats.top_papers stats))) /\
               unformattable v = true /\
               e = match v with
                   | JStr _ => ValueError "Cannot specify ',' with 's'."
                   | _ => TypeError ("unsupported format string passed to "
                                       ++ type_name v ++ ".__format__")
                   end).
Proof.
  assert (Hnum : forall v, unformattable v = negb (numeric v))
    by (intros []; reflexivity).
  assert (Hexn : forall v e, format_comma v = Err e ->
            unformattable v = true /\
            e = match v with
                | JStr _ => ValueError "Cannot specify ',' with 's'."
                | _ => TypeError ("unsupported format string passed to "
                                    ++ type_name v ++ ".__format__")
                end).
  { intros [] e H; simpl in H; try discriminate H;
      injection H as <-; split; reflexivity. }
  unfold format_insights. split; [split|].
  - intros (report & H). inv_ok. split.
    + rewrite Hnum. apply negb_false_iff, format_comma_ok. eauto.
    + apply Forall_forall. intros paper Hp.
      destruct (mapM_ok_each _ _ _ E0 paper Hp) as (y & Hy).
      unfold format_paper in Hy. inv_ok.
      rewrite Hnum. apply negb_false_iff, format_comma_ok. eauto.
  - intros (Ht & Hp). fold (format_insights py_repr stats).
    apply format_insights_ok_of_numbers.
    + rewrite Hnum in Ht. now apply negb_false_iff in Ht.
    + eapply Forall_impl; [|exact Hp]. intros paper Hn. simpl in Hn.
      rewrite Hnum in Hn. now apply negb_false_iff in Hn.
  - intros e H.
    destruct (format_comma (ResearchStats.total_papers stats)) as [total|e1] eqn:Et;
      simpl in H.
    + destruct (mapM (format_paper py_repr) (ResearchStats.top_papers stats))
        as [papers|e2] eqn:Ep; simpl in H; [discriminate|].
      injection H as ->. apply mapM_err in Ep. destruct Ep as (paper & Hin & Hf).
      unfold format_paper in Hf.
      destruct (format_comma (citations paper)) as [c|e3] eqn:Ec; simpl in Hf;
        [discriminate|]. injection Hf as ->.
      exists (citations paper). split; [right; now apply in_map|].
      now apply Hexn.
    + injection H as ->. exists (ResearchStats.total_papers stats).
      split; [now left|]. now apply Hexn.
Qed.

(** X8. The statistics of a payload whose reported count is a number and
    whose first five records have numeric citation counts (or none) always
    format to a report. *)
Theorem report_of_numeric_payload W plt savefig_b64 py_repr p w st w' :
  analyze_research_data W plt savefig_b64 p w = (Ok st, w') ->
  numeric (field_or "count" (JInt 0) (field_or "meta" (JObj []) p)) = true ->
  Forall (fun r => numeric (field_or "cited_by_count" (JInt 0) r) = true)
    (firstn 5 (records p)) ->
  exists report, format_insights py_repr st = Ok report.
Proof.
  intros H Hc Hr. apply analyze_ok in H. destruct H as (st0 & ch & Hb & _ & ->).
  apply build_stats_head in Hb. destruct Hb as (Ht & Hp).
  apply format_insights_ok_of_numbers; simpl.
  - now rewrite Ht.
  - rewrite Hp. apply Forall_forall. intros paper Hin.
    apply in_map_iff in Hin. destruct Hin as (r & <- & Hin).
    rewrite Forall_forall in Hr. now apply Hr.
Qed.

Lemma prefix_app a b : String.prefix a (a ++ b) = true.
Proof.
  induction a as [|c a IH]; simpl.
  - destruct b; reflexivity.
  - destruct (Ascii.ascii_dec c c); [exact IH | contradiction].
Qed.

Lemma contains_prefix x hay : String.prefix x hay = true -> contains x hay = true.
Proof. intros H. destruct hay; simpl in *; now rewrite H. Qed.

Lemma contains_here x rest : contains x (x ++ rest) = true.
Proof. apply contains_prefix, prefix_app. Qed.

Lemma contains_app_r x pre hay :
  contains x hay = true -> contains x (pre ++ hay) = true.
Proof.
  intros H. induction pre as [|c pre IH]; [exact H|].
  change (contains x (String c pre ++ hay))
    with (if String.prefix x (String c (pre ++ hay)) then true
          else contains x (pre ++ hay)).
  destruct (String.prefix x (String c (pre ++ hay))); auto.
Qed.

Section RunFacts.

#[local] Set Default Proof Using "Type".

Variable W : Type.
Variable requests_get :
  string -> list (string * json) -> W -> answer http_response * W.
Variable chat_create : chat_request -> W -> answer string * W.
Variable plt : plt_call -> W -> answer unit * W.
Variable savefig_b64 : W -> answer string * W.
Variable py_repr : json -> string.

Local Abbreviation charts_of := (create_visualization_charts W plt savefig_b64).
Local Abbreviation analyze := (analyze_research_data W plt savefig_b64).
Local Abbreviation query := (query_openalex W requests_get).
Local Abbreviation insights_of := (generate_investment_insights W chat_create).

(** X9. [generate_investment_insights] asks the completion service once.
    An answer is returned as it is and nothing is printed; a failure is
    printed as a detail line and raised again as an [Exception] whose
    message is the service's message after a fixed prefix.  There is no
    second attempt. *)
Theorem insights_one_call_wrapped_failure research_data concept w :
  let request := chat_request_of (prompt_of research_data concept) in
  match chat_create request (ext w) with
  | (inr content, x) =>
      insights_of research_data concept w =
        (Ok content, mkWorld x (trace w ++ [EvChat request None]))
  | (inl msg, x) =>
      insights_of research_data concept w =
        (Err (Exception ("Azure OpenAI API call failed: " ++ msg)),
         mkWorld x (trace w ++ [EvChat request (Some msg);
                                EvPrint ("Detailed error: " ++ msg)]))
  end.
Proof.
  unfold generate_investment_insights, call_chat, emit. cbv zeta.
  destruct (chat_create (chat_request_of (prompt_of research_data concept)) (ext w))
    as [[msg|content] x]; simpl; [|reflexivity].
  now rewrite <- app_assoc.
Qed.

End RunFacts.

(** X10. The prompt sent to the completion service holds the report and
    the concept, each as it was given, and asks for at most 1000 tokens of
    the [gpt-4o] deployment. *)
Theorem prompt_embeds_report_and_concept research_data concept :
  let request := chat_request_of (prompt_of research_data concept) in
  contains research_data (user_content request) = true /\
  contains concept (user_content request) = true /\
  model request = "gpt-4o" /\ max_tokens request = 1000%Z.
Proof.
  cbv zeta. split; [|split; [|split; reflexivity]];
    cbv [chat_request_of user_content prompt_of];
    repeat first [ apply contains_here | apply contains_app_r ].
Qed.

(** * Further properties of the run *)

Section RunTrace.

#[local] Set Default Proof Using "Type".

Variable W : Type.
Variable requests_get :
  string -> list (string * json) -> W -> answer http_response * W.
Variable chat_create : chat_request -> W -> answer string * W.
Variable plt : plt_call -> W -> answer unit * W.
Variable savefig_b64 : W -> answer string * W.
Variable py_repr : json -> string.
Variable validation_error : json -> string.

Local Abbreviation charts_of := (create_visualization_charts W plt savefig_b64).
Local Abbreviation analyze := (analyze_research_data W plt savefig_b64).
Local Abbreviation query := (query_openalex W requests_get).
Local Abbreviation insights_of := (generate_investment_insights W chat_create).
Local Abbreviation invoke :=
  (workflow_invoke W requests_get chat_create plt savefig_b64 py_repr
     validation_error).
Local Abbreviation run_bot :=
  (run W requests_get chat_create plt savefig_b64 py_repr validation_error).

Lemma emits_ret {A} Q (a : A) : emits Q (ret W a).
Proof. intros w. exists []. simpl. now rewrite app_nil_r. Qed.

Lemma emits_lift {A} Q (r : pyres A) : emits Q (lift W r).
Proof. intros w. exists []. simpl. now rewrite app_nil_r. Qed.

Lemma emits_bind {A B} Q (m : M W A) (k : A -> M W B) :
  emits Q m -> (forall a, emits Q (k a)) -> emits Q (bind W m k).
Proof.
  intros Hm Hk w. destruct (Hm w) as (evs1 & Ht1 & Hq1). unfold bind.
  destruct (m w) as [[a|e] w1]; simpl in *.
  - destruct (Hk a w1) as (evs2 & Ht2 & Hq2).
    exists (evs1 ++ evs2)%list. rewrite Ht2, Ht1, app_assoc. split; auto.
    apply Forall_app; auto.
  - exists evs1. auto.
Qed.

Lemma emits_call_plt c :
  emits (fun ev => is_backend ev = true) (call_plt W plt c).
Proof.
  intros w. unfold call_plt. destruct (plt c (ext w)) as [r x]. simpl.
  eexists. split; [reflexivity|]. repeat constructor.
Qed.

Lemma emits_call_savefig :
  emits (fun ev => is_backend ev = true) (call_savefig W savefig_b64).
Proof.
  intros w. unfold call_savefig. destruct (savefig_b64 (ext w)) as [r x]. simpl.
  eexists. split; [reflexivity|]. repeat constructor.
Qed.

Lemma analyze_emits p : emits (fun ev => is_backend ev = true) (analyze p).
Proof.
  unfold analyze_research_data, create_visualization_charts.
  repeat first
    [ apply emits_bind; [|intros ?]
    | apply emits_call_plt
    | apply emits_call_savefig
    | apply emits_ret
    | apply emits_lift ].
Qed.

Lemma query_trace concept w :
  exists r, trace (snd (query concept w)) =
            (trace w ++ [EvGet base_url (query_params concept) r])%list.
Proof.
  unfold query_openalex, bind, call_get.
  destruct (requests_get base_url (query_params concept) (ext w)) as [[msg|r] x];
    simpl; [eauto|].
  destruct (negb (status_code r =? 200)%Z); simpl; eauto.
Qed.

Lemma insights_trace research_data concept w :
  exists f ps,
    trace (snd (insights_of research_data concept w)) =
      (trace w ++ EvChat (chat_request_of (prompt_of research_data concept)) f
                  :: ps)%list /\
    Forall (fun ev => is_get ev = false /\ is_chat ev = false) ps.
Proof.
  unfold generate_investment_insights, call_chat, emit.
  destruct (chat_create (chat_request_of (prompt_of research_data concept)) (ext w))
    as [[msg|content] x]; simpl.
  - exists (Some msg), [EvPrint ("Detailed error: " ++ msg)].
    rewrite <- app_assoc. split; auto.
  - exists None, []. split; auto.
Qed.

Lemma run_world self concept w :
  snd (run_bot self concept w) = snd (invoke concept w).
Proof.
  unfold run. destruct (invoke concept w) as [[st|e] w']; simpl; auto.
  destruct (State.result st), (State.investment_insights st); reflexivity.
Qed.

(** The aggregation returns only for a payload that is an object. *)
Lemma analyze_ok_object p w st w' :
  analyze p w = (Ok st, w') -> exists kvs, p = JObj kvs.
Proof.
  intros H. apply analyze_ok in H. destruct H as (st0 & ch & Hb & _).
  unfold build_stats in Hb. apply rbind_ok in Hb. destruct Hb as (v & Hv & _).
  apply dict_get_ok in Hv. destruct Hv as (kvs & -> & _). eauto.
Qed.

(** The graph, stage by stage: the body the fetch returned is validated
    as the input of the second node; the later inputs hold the same body. *)
Lemma invoke_unfold concept w :
  invoke concept w =
  match query concept w with
  | (Err e, w1) => (Err e, w1)
  | (Ok payload, w1) =>
      match state_input validation_error
              (State.mk concept (Some payload) None None None None) with
      | Err e => (Err e, w1)
      | Ok _ =>
          match analyze payload w1 with
          | (Err e, w2) => (Err e, w2)
          | (Ok stats, w2) =>
              match format_insights py_repr stats with
              | Err e => (Err e, w2)
              | Ok report =>
                  match insights_of report concept w2 with
                  | (Err e, w3) => (Err e, w3)
                  | (Ok content, w3) =>
                      (Ok (State.mk concept (Some payload) (Some stats)
                             (Some report) (Some content)
                             (ResearchStats.charts stats)), w3)
                  end
              end
          end
      end
  end.
Proof.
  unfold workflow_invoke, enter, query_node, analyze_node, format_node,
    insights_node, bind, ret, lift, state_input.
  cbn [State.concept State.api_response State.stats State.result].
  destruct (query concept w) as [[payload|e] w1]; [|reflexivity].
  cbn [State.concept State.api_response State.stats State.result].
  destruct payload; try reflexivity;
    (destruct (analyze _ w1) as [[stats|e] w2]; [|reflexivity];
     cbn [State.concept State.api_response State.stats State.result];
     destruct (format_insights py_repr stats) as [report|e]; [|reflexivity];
     cbn [State.concept State.api_response State.stats State.result];
     destruct (insights_of report concept w2) as [[content|e] w3]; reflexivity).
Qed.

(** What a run adds to the trace: the request, then calls of the backend,
    and, only after the report was made, the call of the completion service
    and what it prints. *)
Lemma invoke_trace concept w :
  exists r bs,
    Forall (fun ev => is_backend ev = true) bs /\
    (trace (snd (invoke concept w)) =
       (trace w ++ EvGet base_url (query_params concept) r :: bs)%list \/
     exists payload w1 stats w2 report f ps,
       query concept w = (Ok payload, w1) /\
       analyze payload w1 = (Ok stats, w2) /\
       format_insights py_repr stats = Ok report /\
       Forall (fun ev => is_get ev = false /\ is_chat ev = false) ps /\
       trace (snd (invoke concept w)) =
         (trace w ++ EvGet base_url (query_params concept) r
            :: bs ++ EvChat (chat_request_of (prompt_of report concept)) f
            :: ps)%list).
Proof.
  destruct (query_trace concept w) as (r & Hq). exists r.
  rewrite invoke_unfold.
  destruct (query concept w) as [[payload|e] w1] eqn:Eq; simpl in Hq.
  - destruct (state_input validation_error
                (State.mk concept (Some payload) None None None None));
      [|exists []; split; auto].
    destruct (analyze_emits payload w1) as (bs & Ha & Hbs). exists bs.
    split; auto.
    destruct (analyze payload w1) as [[stats|e] w2] eqn:Ea; simpl in Ha.
    + destruct (format_insights py_repr stats) as [report|e] eqn:Ef.
      * right. exists payload, w1, stats, w2, report.
        destruct (insights_trace report concept w2) as (f & ps & Hi & Hps).
        exists f, ps. repeat split; auto.
        destruct (insights_of report concept w2) as [[i|e] w3]; simpl in *;
          rewrite Hi, Ha, Hq, <- !app_assoc; reflexivity.
      * left. simpl. rewrite Ha, Hq, <- app_assoc. reflexivity.
    + left. simpl. rewrite Ha, Hq, <- app_assoc. reflexivity.
  - exists []. split; auto.
Qed.

(** X11. A run makes exactly one request to the endpoint, before anything
    else, whether it succeeds or fails: there is no retry and no second
    page. *)
Theorem run_makes_one_request self concept w :
  exists r evs,
    trace (snd (run_bot self concept w)) =
      (trace w ++ EvGet base_url (query_params concept) r :: evs)%list /\
    Forall (fun ev => is_get ev = false) evs.
Proof.
  rewrite run_world.
  destruct (invoke_trace concept w)
    as (r & bs & Hbs & [H|(p & w1 & st & w2 & rep & f & ps & _ & _ & _ & Hps & H)]).
  - exists r, bs. split; auto.
    eapply Forall_impl; [|exact Hbs]. intros [] Hb; simpl in *; congruence.
  - exists r, (bs ++ EvChat (chat_request_of (prompt_of rep concept)) f :: ps)%list.
    split; auto. apply Forall_app. split.
    + eapply Forall_impl; [|exact Hbs]. intros [] Hb; simpl in *; congruence.
    + constructor; auto. eapply Forall_impl; [|exact Hps]. intros ev [Hg _]; auto.
Qed.

(** X12. The completion service is called at most once in a run, and only
    after the fetch, the aggregation and the formatting have all returned;
    the request then carries the prompt made of that report and the
    concept.  A run that fails before that costs no completion. *)
Theorem completion_only_after_report self concept w evs request f :
  trace (snd (run_bot self concept w)) = (trace w ++ evs)%list ->
  In (EvChat request f) evs ->
  exists payload w1 stats w2 report,
    query concept w = (Ok payload, w1) /\
    analyze payload w1 = (Ok stats, w2) /\
    format_insights py_repr stats = Ok report /\
    request = chat_request_of (prompt_of report concept) /\
    List.length (filter is_chat evs) = 1.
Proof.
  rewrite run_world. intros Ht Hin.
  destruct (invoke_trace concept w)
    as (r & bs & Hbs & [H|(p & w1 & st & w2 & rep & f' & ps & Hq & Ha & Hf & Hps & H)]);
    rewrite H in Ht; apply app_inv_head in Ht; subst evs.
  - exfalso. destruct Hin as [Hin|Hin]; [discriminate|].
    rewrite Forall_forall in Hbs. apply Hbs in Hin. discriminate.
  - exists p, w1, st, w2, rep. repeat split; auto.
    + destruct Hin as [Hin|Hin]; [discriminate|].
      apply in_app_or in Hin. destruct Hin as [Hin|[Hin|Hin]].
      * rewrite Forall_forall in Hbs. apply Hbs in Hin. discriminate.
      * now injection Hin as <- _.
      * rewrite Forall_forall in Hps. apply Hps in Hin. simpl in Hin.
        destruct Hin; discriminate.
    + simpl. rewrite filter_app. simpl. rewrite length_app. simpl.
      assert (Hb0 : filter is_chat bs = []).
      { clear -Hbs. induction Hbs as [|ev bs Hev _ IH]; simpl; auto.
        destruct ev; simpl in *; try discriminate; auto. }
      assert (Hp0 : filter is_chat ps = []).
      { clear -Hps. induction Hps as [|ev ps [_ Hev] _ IH]; simpl; auto.
        now rewrite Hev. }
      rewrite Hb0, Hp0. reflexivity.
Qed.

(** X13. When the endpoint answers 200 with a body that parses, the
    aggregation returns statistics, they format to a report and the
    completion service answers, [run] returns that report, that answer and
    the charts of the statistics, and the bot remembers the state of the
    run: each stage has received what the stage before it made. *)
Theorem run_returns_what_the_stages_made
  self concept w response x payload stats w2 report content x3 :
  requests_get base_url (query_params concept) (ext w) = (inr response, x) ->
  status_code response = 200%Z ->
  body response = inr payload ->
  analyze payload
    (mkWorld x (trace w ++ [EvGet base_url (query_params concept) None]))
    = (Ok stats, w2) ->
  format_insights py_repr stats = Ok report ->
  chat_create (chat_request_of (prompt_of report concept)) (ext w2)
    = (inr content, x3) ->
  run_bot self concept w =
    ((report, content, ResearchStats.charts stats),
     {| current_state :=
          Some (State.mk concept (Some payload) (Some stats) (Some report)
                  (Some content) (ResearchStats.charts stats)) |},
     mkWorld x3
       (trace w2 ++ [EvChat (chat_request_of (prompt_of report concept)) None])).
Proof.
  intros Hget Hcode Hbody Ha Hf Hchat.
  assert (Hq : query concept w =
               (Ok payload,
                mkWorld x (trace w ++ [EvGet base_url (query_params concept) None]))).
  { unfold query_openalex, bind, call_get. rewrite Hget. simpl.
    rewrite Hcode. simpl. unfold lift, response_json. now rewrite Hbody. }
  assert (Hi : insights_of report concept w2 =
               (Ok content,
                mkWorld x3 (trace w2 ++
                  [EvChat (chat_request_of (prompt_of report concept)) None]))).
  { unfold generate_investment_insights, call_chat. now rewrite Hchat. }
  destruct (analyze_ok_object _ _ _ _ Ha) as (kvs & ->).
  unfold run. rewrite invoke_unfold, Hq. cbn [state_input State.api_response].
  rewrite Ha, Hf, Hi. reflexivity.
Qed.

End RunTrace.

(** * Properties of [main] *)

Lemma requests_app a b : requests (a ++ b) = (requests a ++ requests b)%list.
Proof. unfold requests. apply flat_map_app. Qed.

Lemma requests_none evs :
  Forall (fun ev => is_get ev = false) evs -> requests evs = [].
Proof.
  induction 1 as [|ev evs Hev _ IH]; simpl; auto.
  destruct ev; simpl in *; try discriminate; auto.
Qed.

Section ConsoleFacts.

#[local] Set Default Proof Using "Type".

Variable W : Type.
Variable requests_get :
  string -> list (string * json) -> W -> answer http_response * W.
Variable chat_create : chat_request -> W -> answer string * W.
Variable plt : plt_call -> W -> answer unit * W.
Variable savefig_b64 : W -> answer string * W.
Variable py_repr : json -> string.
Variable validation_error : json -> string.
Variable write_file : string -> string -> W -> answer unit * W.
Variable b64decode : string -> string.

Local Abbreviation invoke :=
  (workflow_invoke W requests_get chat_create plt savefig_b64 py_repr
     validation_error).
Local Abbreviation run_bot :=
  (run W requests_get chat_create plt savefig_b64 py_repr validation_error).
Local Abbreviation save := (save_charts W write_file b64decode).
Local Abbreviation loop :=
  (main_loop W requests_get chat_create plt savefig_b64 py_repr
     validation_error write_file b64decode).

Lemma requests_emit_print line (w : world W) :
  requests (trace (emit W (EvPrint line) w)) = requests (trace w).
Proof. unfold emit. simpl. rewrite requests_app. simpl. apply app_nil_r. Qed.

Lemma run_requests self concept w :
  requests (trace (snd (run_bot self concept w))) =
  (requests (trace w) ++ [request_of concept])%list.
Proof.
  rewrite run_world.
  destruct (invoke_trace W requests_get chat_create plt savefig_b64 py_repr
              validation_error concept w)
    as (r & bs & Hbs & [H|(p & w1 & st & w2 & rep & f & ps & _ & _ & _ & Hps & H)]);
    rewrite H, requests_app; f_equal; simpl; unfold request_of; f_equal.
  - apply requests_none. eapply Forall_impl; [|exact Hbs].
    intros [] Hb; simpl in *; congruence.
  - rewrite requests_app. simpl.
    rewrite (requests_none bs), (requests_none ps); auto.
    + eapply Forall_impl; [|exact Hps]. intros ev [Hg _]; auto.
    + eapply Forall_impl; [|exact Hbs]. intros [] Hb; simpl in *; congruence.
Qed.

Lemma run_charts self concept w r i ch self' w' :
  run_bot self concept w = ((r, i, Some ch), self', w') ->
  map fst ch = chart_ids.
Proof.
  unfold run. rewrite invoke_unfold.
  destruct (query_openalex W requests_get concept w) as [[payload|e] w1];
    [|intros H; discriminate H].
  destruct (state_input validation_error
              (State.mk concept (Some payload) None None None None));
    [|intros H; discriminate H].
  destruct (analyze_research_data W plt savefig_b64 payload w1)
    as [[stats|e] w2] eqn:Ea; [|intros H; discriminate H].
  apply analyze_ok in Ea. destruct Ea as (st0 & ch0 & _ & Hc & ->).
  apply charts_ok in Hc. destruct Hc as (_ & _ & Hids).
  destruct (format_insights py_repr (ResearchStats.set_charts st0 ch0))
    as [report|e]; [|intros H; discriminate H].
  destruct (generate_investment_insights W chat_create report concept w2)
    as [[content|e] w3]; [|intros H; discriminate H].
  simpl. intros H. injection H as _ _ <- _ _. exact Hids.
Qed.

Lemma replace_spaces_underscored concept :
  replace_spaces concept = underscored concept.
Proof.
  unfold underscored. induction concept as [|c concept IH]; simpl; auto.
  now rewrite IH.
Qed.

Lemma save_charts_spec concept : forall items log w,
  requests (trace (snd (save concept items log w))) = requests (trace w) /\
  exists new,
    snd (fst (save concept items log w)) = (log ++ new)%list /\
    Forall (fun call => exists id, In id (map fst items) /\
                                   fw_name call = chart_filename concept id) new.
Proof.
  induction items as [|[name data] items IH]; intros log w.
  - simpl. split; auto. exists []. now rewrite app_nil_r.
  - cbn [save_charts].
    destruct (write_file (chart_filename concept name) (b64decode data) (ext w))
      as [[msg|[]] x].
    + simpl. split; auto. eexists. split; [reflexivity|].
      constructor; [exists name; simpl; auto | constructor].
    + match goal with
      | |- context [save concept items ?log1 ?w1] =>
          destruct (IH log1 w1) as (Hr & new & Hn & Hf)
      end.
      split.
      * rewrite Hr, requests_emit_print. reflexivity.
      * eexists. rewrite Hn, <- app_assoc. split; [reflexivity|].
        constructor; [exists name; simpl; auto|].
        eapply Forall_impl; [|exact Hf].
        intros f (id & Hid & Hname). exists id. simpl; auto.
Qed.

(** X14. [main] serves the lines of the input in order, one request per
    line, until the first line that reads [quit] in any letter case; a run
    that fails does not stop the loop.  It ends on [quit] without reading
    further, or at the end of an input that never says [quit], or on a chart
    file that cannot be written. *)
Theorem main_serves_each_line_once stdin : forall bot written w,
  let out := loop stdin bot written w in
  exists served,
    requests (trace (snd out)) =
      (requests (trace w) ++ map request_of served)%list /\
    match fst (fst (fst out)) with
    | ExitQuit => has_quit stdin = true /\ served = before_quit stdin
    | ExitEOF => has_quit stdin = false /\ served = stdin
    | ExitWriteError _ =>
        served <> [] /\ exists rest, before_quit stdin = (served ++ rest)%list
    end.
Proof.
  induction stdin as [|concept rest IH]; intros bot written w; cbv zeta.
  - exists []. simpl. rewrite app_nil_r. auto.
  - simpl. destruct (lower concept =? "quit")%string eqn:Eq.
    + exists []. simpl. rewrite app_nil_r. auto.
    + pose proof (run_requests bot concept w) as Hrun.
      destruct (run_bot bot concept w) as [[[[r i] charts] bot1] w1].
      simpl in Hrun.
      assert (Hnext : forall written1 w5,
                requests (trace w5) = requests (trace w1) ->
                let out := loop rest bot1 written1 w5 in
                exists served,
                  requests (trace (snd out)) =
                    (requests (trace w) ++ map request_of served)%list /\
                  match fst (fst (fst out)) with
                  | ExitQuit => has_quit rest = true /\
                                served = concept :: before_quit rest
                  | ExitEOF => has_quit rest = false /\ served = concept :: rest
                  | ExitWriteError _ =>
                      served <> [] /\
                      exists rest', concept :: before_quit rest =
                                    (served ++ rest')%list
                  end).
      { intros written1 w5 H5. cbv zeta.
        destruct (IH bot1 written1 w5) as (served & Hs & Hexit).
        exists (concept :: served). split.
        - rewrite Hs, H5, Hrun, <- app_assoc. reflexivity.
        - destruct (fst (fst (fst (loop rest bot1 written1 w5)))).
          + destruct Hexit as [-> ->]. auto.
          + destruct Hexit as [-> ->]. auto.
          + destruct Hexit as (_ & rest' & ->). split; [discriminate|].
            exists rest'. reflexivity. }
      destruct charts as [[|item items]|].
      * apply Hnext. now rewrite !requests_emit_print.
      * destruct (save_charts_spec concept (item :: items) written
                    (emit W (EvPrint "Charts have been generated and saved as:")
                       (emit W (EvPrint (nl ++ "=== VISUALIZATION CHARTS ==="))
                          (emit W (EvPrint i)
                             (emit W (EvPrint (nl ++ "=== INVESTMENT INSIGHTS ==="))
                                (emit W (EvPrint r)
                                   (emit W (EvPrint (nl ++ "=== RESEARCH DATA ==="))
                                      w1)))))))
          as (Hr & _).
        rewrite !requests_emit_print in Hr.
        destruct (save concept (item :: items) written _)
          as [[[msg|] written'] w8]; simpl in Hr.
        -- exists [concept]. simpl. split; [now rewrite Hr, Hrun|].
           split; [discriminate|]. exists (before_quit rest). reflexivity.
        -- apply Hnext. now rewrite requests_emit_print.
      * apply Hnext. now rewrite !requests_emit_print.
Qed.

(** X15. Every call [main] makes to write a file names a chart of a line
    it served: the concept with every space turned into an underscore, an
    underscore, one of [trend], [institutions], [authors], then
    [_chart.png].  [main] writes no file of another name. *)
Theorem main_writes_only_chart_files stdin : forall bot log w,
  exists new,
    snd (fst (fst (loop stdin bot log w))) = (log ++ new)%list /\
    Forall (fun call => exists concept id,
                          In concept (before_quit stdin) /\
                          In id ["trend"; "institutions"; "authors"] /\
                          fw_name call =
                            underscored concept ++ "_" ++ id ++ "_chart.png")
      new.
Proof.
  induction stdin as [|concept rest IH]; intros bot log w.
  - exists []. simpl. now rewrite app_nil_r.
  - simpl. destruct (lower concept =? "quit")%string eqn:Eq.
    + exists []. simpl. now rewrite app_nil_r.
    + destruct (run_bot bot concept w) as [[[[r i] charts] bot1] w1] eqn:Erun.
      assert (Hnext : forall w5,
                exists new,
                  snd (fst (fst (loop rest bot1 log w5))) = (log ++ new)%list /\
                  Forall (fun call => exists c id,
                            In c (concept :: before_quit rest) /\
                            In id ["trend"; "institutions"; "authors"] /\
                            fw_name call =
                              underscored c ++ "_" ++ id ++ "_chart.png") new).
      { intros w5. destruct (IH bot1 log w5) as (new & Hn & Hf).
        exists new. split; auto. eapply Forall_impl; [|exact Hf].
        intros f (c & id & Hc & Hid & Hname). exists c, id. simpl; auto. }
      destruct charts as [[|item items]|]; try apply Hnext.
      apply run_charts in Erun.
      assert (Hhere : forall new1,
                Forall (fun call => exists id,
                          In id (map fst (item :: items)) /\
                          fw_name call = chart_filename concept id) new1 ->
                Forall (fun call => exists c id,
                          In c (concept :: before_quit rest) /\
                          In id ["trend"; "institutions"; "authors"] /\
                          fw_name call =
                            underscored c ++ "_" ++ id ++ "_chart.png") new1).
      { intros new1 Hf1. eapply Forall_impl; [|exact Hf1].
        intros f (id & Hid & Hname). exists concept, id.
        rewrite Erun in Hid. unfold chart_filename in Hname.
        rewrite replace_spaces_underscored in Hname. simpl; auto. }
      match goal with
      | |- context [save concept (item :: items) log ?w7] =>
          destruct (save_charts_spec concept (item :: items) log w7)
            as (_ & new1 & Hn1 & Hf1);
          destruct (save concept (item :: items) log w7)
            as [[[msg|] log'] w8]
      end; simpl in Hn1; subst log'.
      * exists new1. simpl. split; auto.
      * match goal with
        | |- context [loop rest bot1 (log ++ new1)%list ?w9] =>
            destruct (IH bot1 (log ++ new1)%list w9) as (new2 & Hn2 & Hf2)
        end.
        exists (new1 ++ new2)%list. rewrite Hn2, app_assoc. split; auto.
        apply Forall_app. split; auto.
        eapply Forall_impl; [|exact Hf2].
        intros f (c & id & Hc & Hid & Hname). exists c, id. simpl; auto.
Qed.

(** X16. After a run in which a stage raised (the validation of the state
    the stage is given, or the stage itself), [main] prints the error line
    between the two headings and an empty narrative, makes no call to write
    a file, and goes on with the next line of the input: the loop stays
    usable. *)
Theorem main_goes_on_after_a_failed_run concept rest bot log w e w1 :
  (lower concept =? "quit")%string = false ->
  stage_raises W requests_get chat_create plt savefig_b64 py_repr
    validation_error concept w e w1 ->
  loop (concept :: rest) bot log w =
  loop rest bot log
    (mkWorld (ext w1)
       (trace w1 ++ [EvPrint (nl ++ "=== RESEARCH DATA ===");
                     EvPrint ("Error: " ++ str_exn e);
                     EvPrint (nl ++ "=== INVESTMENT INSIGHTS ===");
                     EvPrint EmptyString])).
Proof.
  intros Hq Hraise. apply stage_raises_invoke in Hraise.
  simpl. rewrite Hq. unfold run. rewrite Hraise.
  unfold emit. simpl. rewrite <- !app_assoc. reflexivity.
Qed.

End ConsoleFacts.

(** * The further properties on the scenarios *)

Lemma analyze_needs_institution_and_author_witness :
  exists e w',
    Scenario.analyze Scenario.payload_bare_years Scenario.start = (Err e, w').
Proof.
  apply (analyze_needs_institution_and_author unit Scenario.plt_ok
           Scenario.savefig_ok Scenario.payload_bare_years Scenario.start).
  left. reflexivity.
Defined.

Lemma top_papers_are_first_five_witness :
  exists st w',
    Scenario.analyze Scenario.payload_seven Scenario.start = (Ok st, w') /\
    ResearchStats.top_papers st =
      map summary_of (firstn 5 (records Scenario.payload_seven)) /\
    List.length (ResearchStats.top_papers st) = 5.
Proof.
  eexists. eexists. split; [|split].
  - vm_compute. reflexivity.
  - eapply (top_papers_are_first_five unit Scenario.plt_ok Scenario.savefig_ok
              Scenario.payload_seven Scenario.start).
    vm_compute. reflexivity.
  - reflexivity.
Defined.

Lemma top_lists_descending_distinct_witness :
  exists st w',
    Scenario.analyze Scenario.payload_seven Scenario.start = (Ok st, w') /\
    ResearchStats.top_institutions st =
      [(KStr "F", 2); (KStr "A", 1); (KStr "B", 1); (KStr "C", 1); (KStr "D", 1)] /\
    StronglySorted
      (fun a b => snd b <= snd a /\ key_eqb (fst a) (fst b) = false)
      (ResearchStats.top_institutions st).
Proof.
  eexists. eexists. split; [|split].
  - vm_compute. reflexivity.
  - reflexivity.
  - eapply (top_lists_descending_distinct unit Scenario.plt_ok
              Scenario.savefig_ok Scenario.payload_seven Scenario.start).
    vm_compute. reflexivity.
Defined.

Lemma top_lists_hold_the_most_frequent_witness :
  exists st w',
    Scenario.analyze Scenario.payload_seven Scenario.start = (Ok st, w') /\
    ((exists k, is_key k (JStr "E") = true /\
                In (k, 1) (ResearchStats.top_institutions st)) \/
     (List.length (ResearchStats.top_institutions st) = 5 /\
      forall t, In t (ResearchStats.top_institutions st) -> 1 <= snd t)).
Proof.
  eexists. eexists. split.
  - vm_compute. reflexivity.
  - eapply (fun H => proj1 (top_lists_hold_the_most_frequent unit
              Scenario.plt_ok Scenario.savefig_ok Scenario.payload_seven
              Scenario.start _ _ H) (JStr "E")).
    + vm_compute. reflexivity.
    + vm_compute. do 4 right. left. reflexivity.
Defined.

Lemma trend_counts_add_up_witness :
  exists st w',
    Scenario.analyze Scenario.payload_years Scenario.start = (Ok st, w') /\
    counter_total (ResearchStats.yearly_trends st) = 3.
Proof.
  eexists. eexists. split.
  - vm_compute. reflexivity.
  - eapply (trend_counts_add_up unit Scenario.plt_ok Scenario.savefig_ok
              Scenario.payload_years Scenario.start).
    vm_compute. reflexivity.
Defined.

Lemma mixed_year_kinds_raise_witness :
  exists e w',
    Scenario.analyze Scenario.payload_mixed_years Scenario.start = (Err e, w').
Proof.
  apply (mixed_year_kinds_raise unit Scenario.plt_ok Scenario.savefig_ok
           Scenario.payload_mixed_years Scenario.start 2020 "2021").
  - left. reflexivity.
  - right. left. reflexivity.
Defined.

Lemma format_insights_needs_numbers_witness :
  exists report, format_insights Scenario.repr_plain Scenario.stats_AB = Ok report.
Proof.
  apply (proj2 (proj1 (format_insights_needs_numbers Scenario.repr_plain
                         Scenario.stats_AB))).
  split; [reflexivity|]. repeat constructor.
Defined.

Lemma report_of_numeric_payload_witness :
  exists report, format_insights Scenario.repr_plain Scenario.stats_AB = Ok report.
Proof.
  apply (report_of_numeric_payload unit Scenario.plt_ok Scenario.savefig_ok
           Scenario.repr_plain Scenario.payload_AB Scenario.world_fetched
           Scenario.stats_AB Scenario.world_analyzed).
  - vm_compute. reflexivity.
  - reflexivity.
  - repeat constructor.
Defined.

Lemma completion_only_after_report_witness :
  exists payload w1 stats w2 report,
    query_openalex unit Scenario.get_200 "graphene" Scenario.start
      = (Ok payload, w1) /\
    Scenario.analyze payload w1 = (Ok stats, w2) /\
    format_insights Scenario.repr_plain stats = Ok report /\
    chat_request_of (prompt_of Scenario.report_AB "graphene")
      = chat_request_of (prompt_of report "graphene") /\
    List.length (filter is_chat Scenario.trace_success) = 1.
Proof.
  apply (completion_only_after_report unit Scenario.get_200 Scenario.chat_ok
           Scenario.plt_ok Scenario.savefig_ok Scenario.repr_plain Scenario.invalid_plain Scenario.bot
           "graphene" Scenario.start Scenario.trace_success
           (chat_request_of (prompt_of Scenario.report_AB "graphene")) None).
  - vm_compute. reflexivity.
  - vm_compute. repeat first [ left; reflexivity | right ].
Defined.

Lemma run_returns_what_the_stages_made_witness :
  run unit Scenario.get_200 Scenario.chat_ok Scenario.plt_ok Scenario.savefig_ok
    Scenario.repr_plain Scenario.invalid_plain Scenario.bot "graphene" Scenario.start =
  ((Scenario.report_AB, "A maturing field.",
    ResearchStats.charts Scenario.stats_AB),
   {| current_state :=
        Some (State.mk "graphene" (Some Scenario.payload_AB)
                (Some Scenario.stats_AB) (Some Scenario.report_AB)
                (Some "A maturing field.")
                (ResearchStats.charts Scenario.stats_AB)) |},
   mkWorld tt
     (trace Scenario.world_analyzed
        ++ [EvChat (chat_request_of (prompt_of Scenario.report_AB "graphene"))
              None])).
Proof.
  apply (run_returns_what_the_stages_made unit Scenario.get_200 Scenario.chat_ok
           Scenario.plt_ok Scenario.savefig_ok Scenario.repr_plain Scenario.invalid_plain Scenario.bot
           "graphene" Scenario.start
           {| status_code := 200; body := inr Scenario.payload_AB |} tt
           Scenario.payload_AB Scenario.stats_AB Scenario.world_analyzed
           Scenario.report_AB "A maturing field." tt).
  - reflexivity.
  - reflexivity.
  - reflexivity.
  - vm_compute. reflexivity.
  - vm_compute. reflexivity.
  - reflexivity.
Defined.

Lemma main_goes_on_after_a_failed_run_witness :
  main_loop unit Scenario.get_list Scenario.chat_ok Scenario.plt_ok
    Scenario.savefig_ok Scenario.repr_plain Scenario.invalid_plain
    Scenario.write_ok Scenario.decode_plain ["solid state"; "QUIT"]
    Scenario.bot [] Scenario.start =
  main_loop unit Scenario.get_list Scenario.chat_ok Scenario.plt_ok
    Scenario.savefig_ok Scenario.repr_plain Scenario.invalid_plain
    Scenario.write_ok Scenario.decode_plain ["QUIT"] Scenario.bot []
    (mkWorld tt
       ([EvGet base_url (query_params "solid state") None]
          ++ [EvPrint (nl ++ "=== RESEARCH DATA ===");
              EvPrint ("Error: " ++ Scenario.invalid_plain (JArr []));
              EvPrint (nl ++ "=== INVESTMENT INSIGHTS ===");
              EvPrint EmptyString])).
Proof.
  apply (main_goes_on_after_a_failed_run unit Scenario.get_list Scenario.chat_ok
           Scenario.plt_ok Scenario.savefig_ok Scenario.repr_plain
           Scenario.invalid_plain Scenario.write_ok Scenario.decode_plain
           "solid state" ["QUIT"] Scenario.bot [] Scenario.start
           (ValidationError (Scenario.invalid_plain (JArr [])))
           (mkWorld tt [EvGet base_url (query_params "solid state") None])).
  - reflexivity.
  - right. eexists. eexists. split.
    + vm_compute. reflexivity.
    + left. vm_compute. reflexivity.
Defined.
